(** * TrueProduct tracker: the authenticity-verification core

    A shallow embedding of [src/lib/hash.ts] (fingerprint, QR payload codec,
    expiry test), of the [verifyProduct] / [recordScan] pair of the scan page
    and of [handleSubmit] of the product-management page, together with the
    platform functions they call ([btoa], [atob], [JSON.stringify],
    [JSON.parse], [TextEncoder], SHA-256).

    JavaScript strings are sequences of UTF-16 code units; a code unit is an
    [N].  Exceptions are explicit: a computation that may throw returns
    [Exc A]. *)

From Stdlib Require Import String Ascii NArith ZArith List Bool Lia.
Import ListNotations.

Local Open Scope N_scope.

(* ------------------------------------------------------------------ *)
(** ** JavaScript strings and exceptions *)

Definition jsstring := list N.

(** An ASCII literal as a JavaScript string. *)
Fixpoint str (s : string) : jsstring :=
  match s with
  | EmptyString => []
  | String a r => N_of_ascii a :: str r
  end.

Fixpoint jsstring_eqb (a b : jsstring) : bool :=
  match a, b with
  | [], [] => true
  | x :: a', y :: b' => (x =? y) && jsstring_eqb a' b'
  | _, _ => false
  end.

Inductive JsError :=
| InvalidCharacterError   (* DOMException of btoa / atob *)
| SyntaxError             (* JSON.parse *)
| HostError.              (* anything the host raises: network, storage, ... *)

Inductive Exc (A : Type) :=
| Ok (a : A)
| Throw (e : JsError).
Arguments Ok {A} a.
Arguments Throw {A} e.

Definition exc_bind {A B} (m : Exc A) (k : A -> Exc B) : Exc B :=
  match m with
  | Ok a => k a
  | Throw e => Throw e
  end.

(* ------------------------------------------------------------------ *)
(** ** Base64: [btoa] and [atob] (WHATWG forgiving-base64) *)

Definition b64alphabet : jsstring :=
  str "ABCDEFGHIJKLMNOPQRSTUVWXYZabcdefghijklmnopqrstuvwxyz0123456789+/".

Definition b64char (i : N) : N := nth (N.to_nat i) b64alphabet 0.

Definition pad : N := 61. (* '=' *)

Fixpoint base64_encode (bs : list N) : jsstring :=
  match bs with
  | [] => []
  | [a] =>
      [b64char (N.shiftr a 2); b64char (N.shiftl (N.land a 3) 4); pad; pad]
  | [a; b] =>
      [b64char (N.shiftr a 2);
       b64char (N.lor (N.shiftl (N.land a 3) 4) (N.shiftr b 4));
       b64char (N.shiftl (N.land b 15) 2); pad]
  | a :: b :: c :: rest =>
      b64char (N.shiftr a 2)
      :: b64char (N.lor (N.shiftl (N.land a 3) 4) (N.shiftr b 4))
      :: b64char (N.lor (N.shiftl (N.land b 15) 2) (N.shiftr c 6))
      :: b64char (N.land c 63)
      :: base64_encode rest
  end.

Definition is_latin1 (c : N) : bool := c <=? 255.

(** [btoa(data)]: throws when [data] has a code unit above U+00FF. *)
Definition btoa (data : jsstring) : Exc jsstring :=
  if forallb is_latin1 data then Ok (base64_encode data)
  else Throw InvalidCharacterError.

Definition is_ascii_whitespace (c : N) : bool :=
  (c =? 9) || (c =? 10) || (c =? 12) || (c =? 13) || (c =? 32).

(** Position of a code unit in the base64 alphabet. *)
Definition b64index (c : N) : option N :=
  if (65 <=? c) && (c <=? 90) then Some (c - 65)
  else if (97 <=? c) && (c <=? 122) then Some (c - 71)
  else if (48 <=? c) && (c <=? 57) then Some (c + 4)
  else if c =? 43 then Some 62
  else if c =? 47 then Some 63
  else None.

Definition is_b64 (c : N) : bool :=
  match b64index c with Some _ => true | None => false end.

Definition sextet (c : N) : N :=
  match b64index c with Some i => i | None => 0 end.

(** Remove one or two trailing [=]. *)
Fixpoint drop_trailing_pad (d : jsstring) : jsstring :=
  match d with
  | [] => []
  | c :: r =>
      match r with
      | [] => if c =? pad then [] else [c]
      | [c'] => if (c =? pad) && (c' =? pad) then [] else c :: drop_trailing_pad r
      | _ => c :: drop_trailing_pad r
      end
  end.

Fixpoint base64_decode_groups (d : jsstring) : list N :=
  match d with
  | a :: b :: c :: e :: rest =>
      N.lor (N.shiftl (sextet a) 2) (N.shiftr (sextet b) 4)
      :: N.lor (N.shiftl (N.land (sextet b) 15) 4) (N.shiftr (sextet c) 2)
      :: N.lor (N.shiftl (N.land (sextet c) 3) 6) (sextet e)
      :: base64_decode_groups rest
  | [a; b; c] =>
      [N.lor (N.shiftl (sextet a) 2) (N.shiftr (sextet b) 4);
       N.lor (N.shiftl (N.land (sextet b) 15) 4) (N.shiftr (sextet c) 2)]
  | [a; b] =>
      [N.lor (N.shiftl (sextet a) 2) (N.shiftr (sextet b) 4)]
  | _ => []
  end.

(** Forgiving-base64 decode: strip ASCII whitespace; when the length is a
    multiple of four drop one or two trailing [=]; fail when the length is
    1 modulo 4 or a unit is outside the alphabet; else decode. *)
Definition forgiving_base64_decode (data : jsstring) : option (list N) :=
  let d := filter (fun c => negb (is_ascii_whitespace c)) data in
  let d := if Nat.eqb (Nat.modulo (length d) 4) 0 then drop_trailing_pad d else d in
  if Nat.eqb (Nat.modulo (length d) 4) 1 then None
  else if forallb is_b64 d then Some (base64_decode_groups d)
  else None.

(** [atob(data)]: throws on a decoding failure. *)
Definition atob (data : jsstring) : Exc jsstring :=
  match forgiving_base64_decode data with
  | Some bytes => Ok bytes
  | None => Throw InvalidCharacterError
  end.

(* ------------------------------------------------------------------ *)
(** ** JSON values, [JSON.stringify] of a payload, [JSON.parse] *)

(** A JSON number keeps its lexeme: no function below computes with it. *)
#[warnings="-register-all"]
Inductive JSON :=
| JNull
| JBool (b : bool)
| JNumber (lexeme : jsstring)
| JString (s : jsstring)
| JArray (elems : list JSON)
| JObject (props : list (jsstring * JSON)).

Module QRPayload.
Record t := mk { hash : jsstring; product_no : jsstring }.
End QRPayload.

(** The object [{ hash, product_no }] as a JavaScript value. *)
Definition payload_value (p : QRPayload.t) : JSON :=
  JObject [(str "hash", JString (QRPayload.hash p));
           (str "product_no", JString (QRPayload.product_no p))].

Definition is_high_surrogate (c : N) : bool := (55296 <=? c) && (c <=? 56319).
Definition is_low_surrogate (c : N) : bool := (56320 <=? c) && (c <=? 57343).
Definition is_surrogate (c : N) : bool := (55296 <=? c) && (c <=? 57343).

Definition hex_digit (d : N) : N := if d <? 10 then 48 + d else 87 + d.

(** [\uXXXX] with lowercase hexadecimal digits. *)
Definition unicode_escape (c : N) : jsstring :=
  [92; 117;
   hex_digit (N.land (N.shiftr c 12) 15); hex_digit (N.land (N.shiftr c 8) 15);
   hex_digit (N.land (N.shiftr c 4) 15); hex_digit (N.land c 15)].

(** One code point of QuoteJSONString that is a single code unit. *)
Definition quote_unit (c : N) : jsstring :=
  if c =? 8 then [92; 98]
  else if c =? 9 then [92; 116]
  else if c =? 10 then [92; 110]
  else if c =? 12 then [92; 102]
  else if c =? 13 then [92; 114]
  else if c =? 34 then [92; 34]
  else if c =? 92 then [92; 92]
  else if (c <? 32) || is_surrogate c then unicode_escape c
  else [c].

(** QuoteJSONString without the enclosing quotes: a surrogate pair is one
    code point and is copied; a lone surrogate is escaped. *)
Fixpoint quote_body (s : jsstring) : jsstring :=
  match s with
  | [] => []
  | c :: r =>
      if is_high_surrogate c then
        match r with
        | d :: r' =>
            if is_low_surrogate d then c :: d :: quote_body r'
            else unicode_escape c ++ quote_body r
        | [] => unicode_escape c
        end
      else quote_unit c ++ quote_body r
  end.

Definition QuoteJSONString (s : jsstring) : jsstring :=
  34 :: quote_body s ++ [34].

(** [JSON.stringify(payload)] for a [QRPayload] object literal. *)
Definition JSON_stringify (p : QRPayload.t) : jsstring :=
  [123] ++ QuoteJSONString (str "hash") ++ [58] ++ QuoteJSONString (QRPayload.hash p)
  ++ [44] ++ QuoteJSONString (str "product_no") ++ [58]
  ++ QuoteJSONString (QRPayload.product_no p) ++ [125].

(** *** Lexical grammar of JSON, one code unit at a time *)

Inductive Token :=
| TLBrace | TRBrace | TLBracket | TRBracket | TColon | TComma
| TStr (s : jsstring)
| TNum (lexeme : jsstring)
| TLit (v : JSON).

Inductive NumState :=
| NMinus | NZero | NInt | NDot | NFrac | NExp | NExpSign | NExpDigits.

Inductive LexMode :=
| LStart
| LStr (acc : jsstring)                    (* inside a string, [acc] reversed *)
| LEsc (acc : jsstring)                    (* after a backslash *)
| LHex (acc : jsstring) (k : nat) (v : N)  (* [\u], [k] digits to come *)
| LNum (st : NumState) (acc : jsstring)    (* inside a number *)
| LWord (v : JSON) (rest : jsstring).      (* inside true / false / null *)

Definition is_digit (c : N) : bool := (48 <=? c) && (c <=? 57).

Definition hex_value (c : N) : option N :=
  if is_digit c then Some (c - 48)
  else if (97 <=? c) && (c <=? 102) then Some (c - 87)
  else if (65 <=? c) && (c <=? 70) then Some (c - 55)
  else None.

Definition is_json_whitespace (c : N) : bool :=
  (c =? 9) || (c =? 10) || (c =? 13) || (c =? 32).

Definition num_accepting (st : NumState) : bool :=
  match st with
  | NZero | NInt | NFrac | NExpDigits => true
  | _ => false
  end.

Definition num_step (st : NumState) (c : N) : option NumState :=
  match st with
  | NMinus => if c =? 48 then Some NZero else if is_digit c then Some NInt else None
  | NZero =>
      if c =? 46 then Some NDot
      else if (c =? 101) || (c =? 69) then Some NExp else None
  | NInt =>
      if is_digit c then Some NInt
      else if c =? 46 then Some NDot
      else if (c =? 101) || (c =? 69) then Some NExp else None
  | NDot => if is_digit c then Some NFrac else None
  | NFrac =>
      if is_digit c then Some NFrac
      else if (c =? 101) || (c =? 69) then Some NExp else None
  | NExp =>
      if (c =? 43) || (c =? 45) then Some NExpSign
      else if is_digit c then Some NExpDigits else None
  | NExpSign => if is_digit c then Some NExpDigits else None
  | NExpDigits => if is_digit c then Some NExpDigits else None
  end.

(** A code unit met between tokens. *)
Definition lex_start (c : N) : option (list Token * LexMode) :=
  if is_json_whitespace c then Some ([], LStart)
  else if c =? 123 then Some ([TLBrace], LStart)
  else if c =? 125 then Some ([TRBrace], LStart)
  else if c =? 91 then Some ([TLBracket], LStart)
  else if c =? 93 then Some ([TRBracket], LStart)
  else if c =? 58 then Some ([TColon], LStart)
  else if c =? 44 then Some ([TComma], LStart)
  else if c =? 34 then Some ([], LStr [])
  else if c =? 45 then Some ([], LNum NMinus [c])
  else if c =? 48 then Some ([], LNum NZero [c])
  else if is_digit c then Some ([], LNum NInt [c])
  else if c =? 116 then Some ([], LWord (JBool true) (str "rue"))
  else if c =? 102 then Some ([], LWord (JBool false) (str "alse"))
  else if c =? 110 then Some ([], LWord JNull (str "ull"))
  else None.

Definition lex_step (m : LexMode) (c : N) : option (list Token * LexMode) :=
  match m with
  | LStart => lex_start c
  | LStr acc =>
      if c =? 34 then Some ([TStr (rev acc)], LStart)
      else if c =? 92 then Some ([], LEsc acc)
      else if c <? 32 then None
      else Some ([], LStr (c :: acc))
  | LEsc acc =>
      if c =? 34 then Some ([], LStr (34 :: acc))
      else if c =? 92 then Some ([], LStr (92 :: acc))
      else if c =? 47 then Some ([], LStr (47 :: acc))
      else if c =? 98 then Some ([], LStr (8 :: acc))
      else if c =? 102 then Some ([], LStr (12 :: acc))
      else if c =? 110 then Some ([], LStr (10 :: acc))
      else if c =? 114 then Some ([], LStr (13 :: acc))
      else if c =? 116 then Some ([], LStr (9 :: acc))
      else if c =? 117 then Some ([], LHex acc 3 0)
      else None
  | LHex acc k v =>
      match hex_value c with
      | None => None
      | Some d =>
          match k with
          | O => Some ([], LStr (16 * v + d :: acc))
          | S k' => Some ([], LHex acc k' (16 * v + d))
          end
      end
  | LNum st acc =>
      match num_step st c with
      | Some st' => Some ([], LNum st' (c :: acc))
      | None =>
          if num_accepting st then
            match lex_start c with
            | Some (ts, m') => Some (TNum (rev acc) :: ts, m')
            | None => None
            end
          else None
      end
  | LWord v rest =>
      match rest with
      | [] => None
      | x :: rest' =>
          if c =? x then
            match rest' with
            | [] => Some ([TLit v], LStart)
            | _ => Some ([], LWord v rest')
            end
          else None
      end
  end.

Definition lex_finish (m : LexMode) : option (list Token) :=
  match m with
  | LStart => Some []
  | LNum st acc => if num_accepting st then Some [TNum (rev acc)] else None
  | _ => None
  end.

Fixpoint lex (m : LexMode) (text : jsstring) : option (list Token) :=
  match text with
  | [] => lex_finish m
  | c :: r =>
      match lex_step m c with
      | None => None
      | Some (ts, m') =>
          match lex m' r with
          | None => None
          | Some tl => Some (ts ++ tl)
          end
      end
  end.

(** *** Syntactic grammar of JSON: a pushdown automaton over tokens *)

(** A container under construction. *)
Inductive Frame :=
| FArray (done : list JSON)                              (* reversed *)
| FObject (props : list (jsstring * JSON)) (key : jsstring).

Inductive Expect :=
| EValue                 (* a value *)
| EValueOrClose          (* just after [[] *)
| EKeyOrClose            (* just after [{] *)
| EKey                   (* after a comma inside an object *)
| EColon                 (* after a key *)
| ECommaOrClose          (* after a value inside a container *)
| EEnd (v : JSON).       (* the whole value has been read *)

(** CreateDataProperty: a repeated key keeps its place and takes the new
    value.  Properties are listed in creation order (array-index keys, which
    JavaScript lists first, are not told apart: no property below depends on
    the order). *)
Fixpoint set_prop (props : list (jsstring * JSON)) (k : jsstring) (v : JSON)
  : list (jsstring * JSON) :=
  match props with
  | [] => [(k, v)]
  | (k', v') :: r =>
      if jsstring_eqb k' k then (k', v) :: r else (k', v') :: set_prop r k v
  end.

Definition ParserState := (list Frame * Expect)%type.

Definition put_value (v : JSON) (stack : list Frame) : option ParserState :=
  match stack with
  | [] => Some ([], EEnd v)
  | FArray done :: st => Some (FArray (v :: done) :: st, ECommaOrClose)
  | FObject props key :: st => Some (FObject (set_prop props key v) key :: st, ECommaOrClose)
  end.

Definition open_or_scalar (t : Token) (stack : list Frame) : option ParserState :=
  match t with
  | TLBrace => Some (FObject [] [] :: stack, EKeyOrClose)
  | TLBracket => Some (FArray [] :: stack, EValueOrClose)
  | TStr s => put_value (JString s) stack
  | TNum l => put_value (JNumber l) stack
  | TLit v => put_value v stack
  | _ => None
  end.

Definition close_array (stack : list Frame) : option ParserState :=
  match stack with
  | FArray done :: st => put_value (JArray (rev done)) st
  | _ => None
  end.

Definition close_object (stack : list Frame) : option ParserState :=
  match stack with
  | FObject props _ :: st => put_value (JObject props) st
  | _ => None
  end.

Definition set_key (k : jsstring) (stack : list Frame) : option ParserState :=
  match stack with
  | FObject props _ :: st => Some (FObject props k :: st, EColon)
  | _ => None
  end.

Definition parse_step (s : ParserState) (t : Token) : option ParserState :=
  let (stack, e) := s in
  match e with
  | EValue => open_or_scalar t stack
  | EValueOrClose =>
      match t with
      | TRBracket => close_array stack
      | _ => open_or_scalar t stack
      end
  | EKeyOrClose =>
      match t with
      | TRBrace => close_object stack
      | TStr k => set_key k stack
      | _ => None
      end
  | EKey => match t with TStr k => set_key k stack | _ => None end
  | EColon => match t with TColon => Some (stack, EValue) | _ => None end
  | ECommaOrClose =>
      match t, stack with
      | TComma, FArray _ :: _ => Some (stack, EValue)
      | TComma, FObject _ _ :: _ => Some (stack, EKey)
      | TRBracket, _ => close_array stack
      | TRBrace, _ => close_object stack
      | _, _ => None
      end
  | EEnd _ => None
  end.

Fixpoint parse_tokens (s : ParserState) (ts : list Token) : option JSON :=
  match ts with
  | [] => match s with ([], EEnd v) => Some v | _ => None end
  | t :: r =>
      match parse_step s t with
      | Some s' => parse_tokens s' r
      | None => None
      end
  end.

(** [JSON.parse(text)]: a SyntaxError when [text] is not one JSON value. *)
Definition JSON_parse (text : jsstring) : Exc JSON :=
  match lex LStart text with
  | None => Throw SyntaxError
  | Some ts =>
      match parse_tokens ([], EValue) ts with
      | Some v => Ok v
      | None => Throw SyntaxError
      end
  end.

(* ------------------------------------------------------------------ *)
(** ** The payload codec of [hash.ts] *)

(** [btoa(JSON.stringify(payload))] *)
Definition encodeQRPayload (payload : QRPayload.t) : Exc jsstring :=
  btoa (JSON_stringify payload).

(** [try { return JSON.parse(atob(encoded)) } catch { return null }]:
    the result is the parsed value, whatever its shape, and [JNull] is
    JavaScript's [null]. *)
Definition decodeQRPayload (encoded : jsstring) : Exc JSON :=
  match exc_bind (atob encoded) JSON_parse with
  | Ok v => Ok v
  | Throw _ => Ok JNull
  end.

(* ------------------------------------------------------------------ *)
(** ** [TextEncoder.encode]: UTF-8 of a JavaScript string *)

(** The scalar values of a string; a lone surrogate becomes U+FFFD. *)
Fixpoint scalar_values (s : jsstring) : list N :=
  match s with
  | [] => []
  | c :: r =>
      if is_high_surrogate c then
        match r with
        | d :: r' =>
            if is_low_surrogate d
            then 65536 + N.shiftl (c - 55296) 10 + (d - 56320) :: scalar_values r'
            else 65533 :: scalar_values r
        | [] => [65533]
        end
      else if is_low_surrogate c then 65533 :: scalar_values r
      else c :: scalar_values r
  end.

Definition utf8_bytes (cp : N) : list N :=
  if cp <? 128 then [cp]
  else if cp <? 2048 then
    [N.lor 192 (N.shiftr cp 6); N.lor 128 (N.land cp 63)]
  else if cp <? 65536 then
    [N.lor 224 (N.shiftr cp 12); N.lor 128 (N.land (N.shiftr cp 6) 63);
     N.lor 128 (N.land cp 63)]
  else
    [N.lor 240 (N.land (N.shiftr cp 18) 7); N.lor 128 (N.land (N.shiftr cp 12) 63);
     N.lor 128 (N.land (N.shiftr cp 6) 63); N.lor 128 (N.land cp 63)].

Definition TextEncoder_encode (s : jsstring) : list N :=
  flat_map utf8_bytes (scalar_values s).

(* ------------------------------------------------------------------ *)
(** ** SHA-256 (FIPS 180-4) on bytes, words as [N] modulo [2^32] *)

Module SHA256.

Definition mask32 : N := 4294967295.
Definition add32 (x y : N) : N := (x + y) mod 4294967296.
Definition rotr (n x : N) : N :=
  N.lor (N.shiftr x n) (N.land (N.shiftl x (32 - n)) mask32).
Definition not32 (x : N) : N := N.lxor x mask32.

Definition Ch (x y z : N) : N := N.lxor (N.land x y) (N.land (not32 x) z).
Definition Maj (x y z : N) : N :=
  N.lxor (N.land x y) (N.lxor (N.land x z) (N.land y z)).
Definition Sigma0 (x : N) : N := N.lxor (rotr 2 x) (N.lxor (rotr 13 x) (rotr 22 x)).
Definition Sigma1 (x : N) : N := N.lxor (rotr 6 x) (N.lxor (rotr 11 x) (rotr 25 x)).
Definition sigma0 (x : N) : N := N.lxor (rotr 7 x) (N.lxor (rotr 18 x) (N.shiftr x 3)).
Definition sigma1 (x : N) : N := N.lxor (rotr 17 x) (N.lxor (rotr 19 x) (N.shiftr x 10)).

Definition K : list N :=
  [
   1116352408; 1899447441; 3049323471; 3921009573; 961987163; 1508970993;
   2453635748; 2870763221; 3624381080; 310598401; 607225278; 1426881987;
   1925078388; 2162078206; 2614888103; 3248222580; 3835390401; 4022224774;
   264347078; 604807628; 770255983; 1249150122; 1555081692; 1996064986;
   2554220882; 2821834349; 2952996808; 3210313671; 3336571891; 3584528711;
   113926993; 338241895; 666307205; 773529912; 1294757372; 1396182291;
   1695183700; 1986661051; 2177026350; 2456956037; 2730485921; 2820302411;
   3259730800; 3345764771; 3516065817; 3600352804; 4094571909; 275423344;
   430227734; 506948616; 659060556; 883997877; 958139571; 1322822218;
   1537002063; 1747873779; 1955562222; 2024104815; 2227730452; 2361852424;
   2428436474; 2756734187; 3204031479; 3329325298
  ].

Definition State := (N * N * N * N * N * N * N * N)%type.

Definition H0 : State :=
  (1779033703, 3144134277, 1013904242, 2773480762,
   1359893119, 2600822924, 528734635, 1541459225).

(** Message padding: a [1] bit, zeros, the bit length on 64 bits. *)
Definition be_bytes (n : nat) (x : N) : list N :=
  map (fun i => N.land (N.shiftr x (8 * N.of_nat i)) 255) (rev (seq 0 n)).

Definition padding (msg : list N) : list N :=
  let len := N.of_nat (length msg) in
  msg ++ [128] ++ repeat 0 (N.to_nat ((119 - len mod 64) mod 64))
      ++ be_bytes 8 ((8 * len) mod 18446744073709551616).

Fixpoint be_words (bs : list N) : list N :=
  match bs with
  | a :: b :: c :: d :: r =>
      N.lor (N.shiftl (N.land a 255) 24)
        (N.lor (N.shiftl (N.land b 255) 16) (N.lor (N.shiftl (N.land c 255) 8) (N.land d 255)))
      :: be_words r
  | _ => []
  end.

(** The message schedule, most recent word first. *)
Fixpoint schedule (n : nat) (w : list N) : list N :=
  match n with
  | O => w
  | S n' =>
      let x := add32 (add32 (sigma1 (nth 1 w 0)) (nth 6 w 0))
                     (add32 (sigma0 (nth 14 w 0)) (nth 15 w 0)) in
      schedule n' (x :: w)
  end.

Definition round (s : State) (kw : N * N) : State :=
  let '(a, b, c, d, e, f, g, h) := s in
  let t1 := add32 (add32 (add32 h (Sigma1 e)) (add32 (Ch e f g) (fst kw))) (snd kw) in
  let t2 := add32 (Sigma0 a) (Maj a b c) in
  (add32 t1 t2, a, b, c, add32 d t1, e, f, g).

Definition compress (s : State) (block : list N) : State :=
  let w := rev (schedule 48 (rev (be_words block))) in
  let '(a, b, c, d, e, f, g, h) := fold_left round (combine K w) s in
  let '(a0, b0, c0, d0, e0, f0, g0, h0) := s in
  (add32 a0 a, add32 b0 b, add32 c0 c, add32 d0 d,
   add32 e0 e, add32 f0 f, add32 g0 g, add32 h0 h).

Fixpoint blocks (n : nat) (s : State) (msg : list N) : State :=
  match n with
  | O => s
  | S n' => blocks n' (compress s (firstn 64 msg)) (skipn 64 msg)
  end.

Definition digest (msg : list N) : list N :=
  let m := padding msg in
  let '(a, b, c, d, e, f, g, h) := blocks (Nat.div (length m) 64) H0 m in
  be_bytes 4 a ++ be_bytes 4 b ++ be_bytes 4 c ++ be_bytes 4 d
  ++ be_bytes 4 e ++ be_bytes 4 f ++ be_bytes 4 g ++ be_bytes 4 h.

End SHA256.

(* ------------------------------------------------------------------ *)
(** ** [hash.ts]: the fingerprint *)

Module ProductAttrs.
Record t := mk {
  product_no : jsstring;
  product_name : jsstring;
  brand : jsstring;
  manufacture_date : jsstring;
  expiry_date : jsstring
}.
End ProductAttrs.

(** [Number.prototype.toString(16)] on a non-negative integer. *)
Fixpoint hex_digits (fuel : nat) (n : N) (acc : jsstring) : jsstring :=
  match fuel with
  | O => acc
  | S fuel' =>
      let acc' := hex_digit (n mod 16) :: acc in
      if n / 16 =? 0 then acc' else hex_digits fuel' (n / 16) acc'
  end.

Definition toString16 (n : N) : jsstring := hex_digits (S (N.size_nat n)) n [].

(** [String.prototype.padStart(targetLength, fill)] with a one-unit fill. *)
Definition padStart (target : nat) (fill : N) (s : jsstring) : jsstring :=
  repeat fill (target - length s) ++ s.

Definition delimiter : jsstring := str "|".

(** The template literal of [generateProductHash]. *)
Definition dataString (product : ProductAttrs.t) : jsstring :=
  ProductAttrs.product_no product ++ delimiter
  ++ ProductAttrs.product_name product ++ delimiter
  ++ ProductAttrs.brand product ++ delimiter
  ++ ProductAttrs.manufacture_date product ++ delimiter
  ++ ProductAttrs.expiry_date product.

Definition hashHex (hashArray : list N) : jsstring :=
  flat_map (fun b => padStart 2 48 (toString16 b)) hashArray.

Definition generateProductHash (product : ProductAttrs.t) : jsstring :=
  let data := TextEncoder_encode (dataString product) in
  let hashArray := SHA256.digest data in
  hashHex hashArray.

Definition verifyProductHash (storedHash : jsstring) (product : ProductAttrs.t) : bool :=
  let computedHash := generateProductHash product in
  jsstring_eqb storedHash computedHash.

(** *** Dates *)

(** What the host gives to [new Date(s)] and [new Date()]: a time value in
    milliseconds since the epoch, [None] for NaN (an Invalid Date). *)
Record Host := mkHost {
  Date_parse : jsstring -> option Z;
  Date_now : Z
}.

(** [new Date(expiryDate) < new Date()]: both sides go through ToNumber, and a
    comparison with NaN is false. *)
Definition isProductExpired (h : Host) (expiryDate : jsstring) : bool :=
  match Date_parse h expiryDate with
  | Some t => (t <? Date_now h)%Z
  | None => false
  end.

(** A host for the examples: the date-only form [YYYY-MM-DD] of the
    ECMAScript date-time string format, which is how a [DATE] column reaches
    the client, read as midnight UTC; anything else is an Invalid Date. *)
Definition digit_value (c : N) : option Z :=
  if is_digit c then Some (Z.of_N (c - 48)) else None.

Fixpoint digits_value (acc : Z) (s : jsstring) : option Z :=
  match s with
  | [] => Some acc
  | c :: r =>
      match digit_value c with
      | Some d => digits_value (10 * acc + d) r
      | None => None
      end
  end.

(** Days from 1970-01-01 to a date of the proleptic Gregorian calendar. *)
Definition days_from_civil (y m d : Z) : Z :=
  let y' := if (m <=? 2)%Z then (y - 1)%Z else y in
  let era := (y' / 400)%Z in
  let yoe := (y' - era * 400)%Z in
  let mp := if (m <=? 2)%Z then (m + 9)%Z else (m - 3)%Z in
  let doy := ((153 * mp + 2) / 5 + d - 1)%Z in
  let doe := (yoe * 365 + yoe / 4 - yoe / 100 + doy)%Z in
  (era * 146097 + doe - 719468)%Z.

Definition iso_date_parse (s : jsstring) : option Z :=
  match s with
  | [y1; y2; y3; y4; 45; m1; m2; 45; d1; d2] =>
      match digits_value 0 [y1; y2; y3; y4], digits_value 0 [m1; m2], digits_value 0 [d1; d2] with
      | Some y, Some m, Some d =>
          if ((1 <=? m) && (m <=? 12) && (1 <=? d) && (d <=? 31))%Z
          then Some (days_from_civil y m d * 86400000)%Z
          else None
      | _, _, _ => None
      end
  | _ => None
  end.

(** The examples run on 2 November 2026, 00:00 UTC. *)
Definition example_host : Host := mkHost iso_date_parse 1793577600000.

(* ------------------------------------------------------------------ *)
(** ** Stateful code: state passing with exceptions

    A handler runs against a mutable state [S] (component state and the
    tables it writes).  A thrown exception keeps the state reached so far. *)

Definition M (S A : Type) := S -> Exc A * S.

Definition ret {S A} (a : A) : M S A := fun s => (Ok a, s).

Definition bind {S A B} (m : M S A) (k : A -> M S B) : M S B :=
  fun s =>
    match m s with
    | (Ok a, s') => k a s'
    | (Throw e, s') => (Throw e, s')
    end.

Definition throw {S A} (e : JsError) : M S A := fun s => (Throw e, s).

Definition lift {S A} (x : Exc A) : M S A := fun s => (x, s).

Definition modify {S} (f : S -> S) : M S unit := fun s => (Ok tt, f s).

(** [try { body } catch (err) { handler }] *)
Definition try_catch {S A} (body : M S A) (handler : JsError -> M S A) : M S A :=
  fun s =>
    match body s with
    | (Ok a, s') => (Ok a, s')
    | (Throw e, s') => handler e s'
    end.

(** [try { body } finally { final }] *)
Definition try_finally {S A} (body : M S A) (final : M S unit) : M S A :=
  fun s =>
    match body s with
    | (r, s') =>
        match final s' with
        | (Ok _, s'') => (r, s'')
        | (Throw e, s'') => (Throw e, s'')
        end
    end.

Declare Scope js_scope.
Delimit Scope js_scope with js.
Notation "x <- m ;; k" := (bind m (fun x => k))
  (at level 61, m at next level, right associativity) : js_scope.
Notation "m ;; k" := (bind m (fun _ => k))
  (at level 61, right associativity) : js_scope.

(** How one request to the storage service ends. *)
Inductive Fault :=
| NoFault        (* the request is served *)
| ReturnsError   (* the client resolves with [{ data: null, error }] *)
| Throws.        (* the awaited promise rejects *)

(** Rows of the [products] and [scans] tables. *)
Module Product.
Record t := mk {
  id : jsstring;
  attrs : ProductAttrs.t;          (* the five canonical columns *)
  qr_hash : jsstring;
  qr_image : option jsstring;
  product_image : option jsstring
}.
Definition product_no (p : t) : jsstring := ProductAttrs.product_no (attrs p).
Definition expiry_date (p : t) : jsstring := ProductAttrs.expiry_date (attrs p).
End Product.

Module Scan.
Record t := mk {
  product_no : jsstring;
  user_id : jsstring;
  is_fake : bool;
  verification_result : jsstring
}.
End Scan.

(* ------------------------------------------------------------------ *)
(** ** The scan page: [verifyProduct] and [recordScan] *)

Inductive VerificationStatus := original | fake | expired | unknown.

(** Component state of [ScanProduct] and the [scans] table it appends to. *)
Record ScanState := mkScanState {
  verificationStatus : option VerificationStatus;
  productDetails : option Product.t;
  loading : bool;
  toasts : list jsstring;              (* titles, oldest first *)
  console : list jsstring;
  scans : list Scan.t
}.

(** What a call reads: the host, the [products] table, the signed-in user
    ([useAuth]) and how the two requests of the call end. *)
Record ScanEnv := mkScanEnv {
  host : Host;
  products : list Product.t;
  user : option jsstring;
  lookup_fault : Fault;
  insert_fault : Fault
}.

Definition setVerificationStatus (v : option VerificationStatus) : M ScanState unit :=
  modify (fun s => mkScanState v (productDetails s) (loading s) (toasts s) (console s) (scans s)).
Definition setProductDetails (d : option Product.t) : M ScanState unit :=
  modify (fun s => mkScanState (verificationStatus s) d (loading s) (toasts s) (console s) (scans s)).
Definition setLoading (b : bool) : M ScanState unit :=
  modify (fun s => mkScanState (verificationStatus s) (productDetails s) b (toasts s) (console s) (scans s)).
Definition toast (title : jsstring) : M ScanState unit :=
  modify (fun s => mkScanState (verificationStatus s) (productDetails s) (loading s)
                     (toasts s ++ [title]) (console s) (scans s)).
Definition console_error (msg : jsstring) : M ScanState unit :=
  modify (fun s => mkScanState (verificationStatus s) (productDetails s) (loading s)
                     (toasts s) (console s ++ [msg]) (scans s)).

(** [supabase.from('scans').insert(row)] *)
Definition insert_scan (env : ScanEnv) (row : Scan.t) : M ScanState unit :=
  match insert_fault env with
  | NoFault =>
      modify (fun s => mkScanState (verificationStatus s) (productDetails s) (loading s)
                         (toasts s) (console s) (scans s ++ [row]))
  | ReturnsError => ret tt
  | Throws => throw HostError
  end.

Record LookupResult := mkLookup { data : option Product.t; error : bool }.

(** [supabase.from('products').select('*').eq('product_no', n).single()]:
    the row when exactly one matches, an error otherwise. *)
Definition select_single (env : ScanEnv) (productNumber : jsstring) : M ScanState LookupResult :=
  match lookup_fault env with
  | NoFault =>
      match filter (fun p => jsstring_eqb (Product.product_no p) productNumber) (products env) with
      | [p] => ret (mkLookup (Some p) false)
      | _ => ret (mkLookup None true)
      end
  | ReturnsError => ret (mkLookup None true)
  | Throws => throw HostError
  end.

Local Open Scope js_scope.

Definition recordScan (env : ScanEnv) (productNo : jsstring) (isFake : bool)
    (result : jsstring) : M ScanState unit :=
  match user env with
  | None => ret tt                                   (* if (!user) return; *)
  | Some uid =>
      try_catch
        (insert_scan env (Scan.mk productNo uid isFake result))
        (fun _ => console_error (str "Error recording scan:"))
  end.

(** ToBoolean of an optional string argument: [undefined] and the empty
    string are falsy. *)
Definition truthy (qrHash : option jsstring) : bool :=
  match qrHash with
  | Some (_ :: _) => true
  | _ => false
  end.

(** The string held by a truthy [qrHash]. *)
Definition string_of (qrHash : option jsstring) : jsstring :=
  match qrHash with
  | Some h => h
  | None => []
  end.

Definition verifyProduct (env : ScanEnv) (productNumber : jsstring)
    (qrHash : option jsstring) : M ScanState unit :=
  setLoading true ;;
  setVerificationStatus None ;;
  setProductDetails None ;;
  try_finally
    (try_catch
       (r <- select_single env productNumber ;;
        match error r, data r with
        | false, Some product =>
            setProductDetails (Some product) ;;
            (* Check expiry first *)
            if isProductExpired (host env) (Product.expiry_date product) then
              setVerificationStatus (Some expired) ;;
              recordScan env productNumber true (str "Product expired") ;;
              toast (str "Product Expired") ;;
              setLoading false
            else
              (* If QR hash provided, verify it *)
              if truthy qrHash then
                let isValid := verifyProductHash (string_of qrHash) (Product.attrs product) in
                if isValid && jsstring_eqb (string_of qrHash) (Product.qr_hash product) then
                  setVerificationStatus (Some original) ;;
                  recordScan env productNumber false (str "Hash verified - Original") ;;
                  toast (str "Product Verified!")
                else
                  setVerificationStatus (Some fake) ;;
                  recordScan env productNumber true (str "Hash mismatch - Fake") ;;
                  toast (str "Warning: Counterfeit Detected")
              else
                (* Manual entry - just verify product exists *)
                setVerificationStatus (Some original) ;;
                recordScan env productNumber false (str "Manual verification - Product exists") ;;
                toast (str "Product Found")
        | _, _ =>
            setVerificationStatus (Some unknown) ;;
            recordScan env productNumber true (str "Product not found in database") ;;
            toast (str "Product Not Found") ;;
            setLoading false
        end)
       (fun _ =>
          console_error (str "Verification error:") ;;
          toast (str "Verification Error")))
    (setLoading false).

(* ------------------------------------------------------------------ *)
(** ** The product-management page: [handleSubmit] *)

(** What became of the image chosen in the form. *)
Inductive ImageStep :=
| NoImageSelected
| Uploaded (url : jsstring)
| UploadFailed.                 (* [uploadImage] returned [null] *)

Record AdminState := mkAdminState {
  table : list Product.t;              (* the [products] table *)
  formData : ProductAttrs.t;
  editingProduct : option Product.t;
  dialogOpen : bool;
  admin_toasts : list jsstring;
  admin_console : list jsstring
}.

Record AdminEnv := mkAdminEnv {
  QRCode_toDataURL : jsstring -> Exc jsstring;
  image_step : ImageStep;
  write_fault : Fault;
  fresh_id : jsstring                  (* [gen_random_uuid()] of an insert *)
}.

Definition emptyForm : ProductAttrs.t := ProductAttrs.mk [] [] [] [] [].

Definition set_table (t : list Product.t) : M AdminState unit :=
  modify (fun s => mkAdminState t (formData s) (editingProduct s) (dialogOpen s)
                     (admin_toasts s) (admin_console s)).
Definition admin_toast (title : jsstring) : M AdminState unit :=
  modify (fun s => mkAdminState (table s) (formData s) (editingProduct s) (dialogOpen s)
                     (admin_toasts s ++ [title]) (admin_console s)).
Definition admin_console_error (msg : jsstring) : M AdminState unit :=
  modify (fun s => mkAdminState (table s) (formData s) (editingProduct s) (dialogOpen s)
                     (admin_toasts s) (admin_console s ++ [msg])).
(** [setDialogOpen(false); setEditingProduct(null); setFormData({...})] *)
Definition reset_form : M AdminState unit :=
  modify (fun s => mkAdminState (table s) emptyForm None false
                     (admin_toasts s) (admin_console s)).

(** The columns sent to the table: [{ ...formData, qr_hash, qr_image }] and
    [product_image] when there is one. *)
Record UpdateData := mkUpdateData {
  u_attrs : ProductAttrs.t;
  u_qr_hash : jsstring;
  u_qr_image : jsstring;
  u_product_image : option jsstring
}.

Definition apply_update (u : UpdateData) (row : Product.t) : Product.t :=
  Product.mk (Product.id row) (u_attrs u) (u_qr_hash u) (Some (u_qr_image u))
    (match u_product_image u with
     | Some url => Some url
     | None => Product.product_image row
     end).

(** [supabase.from('products').update(u).eq('id', id)]; a served write stores
    the columns as they are sent. *)
Definition update_product (env : AdminEnv) (u : UpdateData) (id : jsstring)
  : M AdminState unit :=
  match write_fault env with
  | NoFault =>
      s <- (fun s => (Ok s, s)) ;;
      set_table (map (fun row => if jsstring_eqb (Product.id row) id
                                 then apply_update u row else row) (table s))
  | ReturnsError => ret tt
  | Throws => throw HostError
  end.

(** [supabase.from('products').insert({ ...u, created_by })] *)
Definition insert_product (env : AdminEnv) (u : UpdateData) : M AdminState unit :=
  match write_fault env with
  | NoFault =>
      s <- (fun s => (Ok s, s)) ;;
      set_table (table s ++ [Product.mk (fresh_id env) (u_attrs u) (u_qr_hash u)
                               (Some (u_qr_image u)) (u_product_image u)])
  | ReturnsError => ret tt
  | Throws => throw HostError
  end.

(** The part shared by both versions of [handleSubmit]: fingerprint, QR
    payload, QR image, then one write. *)
Definition submit_write (env : AdminEnv) (productImageUrl : option jsstring)
  : M AdminState unit :=
  s <- (fun s => (Ok s, s)) ;;
  let hash := generateProductHash (formData s) in
  qrPayload <- lift (encodeQRPayload
                       (QRPayload.mk hash (ProductAttrs.product_no (formData s)))) ;;
  qrImage <- lift (QRCode_toDataURL env qrPayload) ;;
  let updateData := mkUpdateData (formData s) hash qrImage productImageUrl in
  match editingProduct s with
  | Some editing =>
      update_product env updateData (Product.id editing) ;;
      admin_toast (str "Product Updated")
  | None =>
      insert_product env updateData ;;
      admin_toast (str "Product Added")
  end ;;
  reset_form.

(** [handleSubmit] of the first version of the page: no image, no [try]. *)
Definition handleSubmit_v1 (env : AdminEnv) : M AdminState unit :=
  submit_write env None.

(** [handleSubmit] of the page with product images. *)
Definition handleSubmit (env : AdminEnv) : M AdminState unit :=
  try_catch
    (s <- (fun s => (Ok s, s)) ;;
     (* editingProduct?.product_image || null *)
     let old := match editingProduct s with
                | Some e =>
                    match Product.product_image e with
                    | Some (c :: r) => Some (c :: r)
                    | _ => None
                    end
                | None => None
                end in
     match image_step env with
     | NoImageSelected => submit_write env old
     | Uploaded url =>
         match url with
         | [] => ret tt                      (* a falsy URL: return *)
         | _ => submit_write env (Some url)
         end
     | UploadFailed => ret tt                (* return before any write *)
     end)
    (fun _ =>
       admin_console_error (str "Error saving product:") ;;
       admin_toast (str "Error")).

(* ------------------------------------------------------------------ *)
(** ** Vocabulary of the properties: specification-side definitions,
    auxiliary functions of the proofs and the data of the examples *)

Definition below (n : nat) : list N := map N.of_nat (seq 0 n).

(** The four sextets of a group of three bytes. *)
Definition s0 (a : N) : N := N.shiftr a 2.
Definition s1 (a b : N) : N := N.lor (N.shiftl (N.land a 3) 4) (N.shiftr b 4).
Definition s2 (b c : N) : N := N.lor (N.shiftl (N.land b 15) 2) (N.shiftr c 6).
Definition s3 (c : N) : N := N.land c 63.

(** A base64 digit: in the alphabet at its own index, neither whitespace nor
    padding. *)
Definition good_digit (x : N) : bool :=
  match b64index (b64char x) with Some i => i =? x | None => false end
  && negb (is_ascii_whitespace (b64char x)) && negb (b64char x =? pad).

(** The encoding without its padding: what [atob] decodes after it has
    dropped the trailing [=]. *)
Fixpoint base64_digits (bs : list N) : jsstring :=
  match bs with
  | [] => []
  | [a] => [b64char (s0 a); b64char (s1 a 0)]
  | [a; b] => [b64char (s0 a); b64char (s1 a b); b64char (s2 b 0)]
  | a :: b :: c :: rest =>
      b64char (s0 a) :: b64char (s1 a b) :: b64char (s2 b c) :: b64char (s3 c)
      :: base64_digits rest
  end.

(** A payload is in the domain of the codec when its serialization has no
    code unit above U+00FF. *)
Definition well_formed (p : QRPayload.t) : bool :=
  forallb is_latin1 (JSON_stringify p).

Definition scenario_payload : QRPayload.t :=
  QRPayload.mk (str "8abbb76e2b2c4d8947404725408b3574b7f1d1ab3a322f235dd5c028e69013dc")
               (str "P-100").

Definition omega_payload : QRPayload.t :=
  QRPayload.mk (QRPayload.hash scenario_payload) [937].

Definition widget : ProductAttrs.t :=
  ProductAttrs.mk (str "P-100") (str "Widget") (str "Acme")
    (str "2024-01-01") (str "2030-01-01").

Definition is_byte (b : N) : Prop := b < 256.

Definition is_lower_hex (c : N) : bool :=
  ((48 <=? c) && (c <=? 57)) || ((97 <=? c) && (c <=? 102)).

(** Reading two hexadecimal digits back as a byte. *)
Definition hex_pair_value (s : jsstring) : option N :=
  match s with
  | [h; l] =>
      match hex_value h, hex_value l with
      | Some x, Some y => Some (16 * x + y)
      | _, _ => None
      end
  | _ => None
  end.

Definition hex_byte_ok (b : N) : bool :=
  let s := padStart 2 48 (toString16 b) in
  Nat.eqb (length s) 2 && forallb is_lower_hex s
  && match hex_pair_value s with Some v => v =? b | None => false end.

Fixpoint unhex (s : jsstring) : option (list N) :=
  match s with
  | [] => Some []
  | h :: l :: r =>
      match hex_pair_value [h; l], unhex r with
      | Some b, Some bs => Some (b :: bs)
      | _, _ => None
      end
  | _ => None
  end.

(** The product a lookup hands to [verifyProduct]: the single row with the
    identifier, when the request is served. *)
Definition found (env : ScanEnv) (productNumber : jsstring) : option Product.t :=
  match lookup_fault env with
  | NoFault =>
      match filter (fun p => jsstring_eqb (Product.product_no p) productNumber) (products env) with
      | [p] => Some p
      | _ => None
      end
  | _ => None
  end.

(** The five ways through [verifyProduct], and the [catch] block. *)
Inductive Branch := BNotFound | BExpired | BVerified | BMismatch | BManual | BCaught.

Definition branch_of (env : ScanEnv) (productNumber : jsstring) (qrHash : option jsstring)
  : Branch :=
  match lookup_fault env with
  | Throws => BCaught
  | _ =>
      match found env productNumber with
      | None => BNotFound
      | Some p =>
          if isProductExpired (host env) (Product.expiry_date p) then BExpired
          else if truthy qrHash then
            if verifyProductHash (string_of qrHash) (Product.attrs p)
               && jsstring_eqb (string_of qrHash) (Product.qr_hash p)
            then BVerified else BMismatch
          else BManual
      end
  end.

Definition branch_status (b : Branch) : option VerificationStatus :=
  match b with
  | BNotFound => Some unknown
  | BExpired => Some expired
  | BVerified => Some original
  | BMismatch => Some fake
  | BManual => Some original
  | BCaught => None
  end.

(** The arguments of the one [recordScan] call of a branch. *)
Definition branch_record (b : Branch) : option (bool * jsstring) :=
  match b with
  | BNotFound => Some (true, str "Product not found in database")
  | BExpired => Some (true, str "Product expired")
  | BVerified => Some (false, str "Hash verified - Original")
  | BMismatch => Some (true, str "Hash mismatch - Fake")
  | BManual => Some (false, str "Manual verification - Product exists")
  | BCaught => None
  end.

(** The rows a call adds to [scans]. *)
Definition recorded (env : ScanEnv) (productNumber : jsstring) (b : Branch) : list Scan.t :=
  match branch_record b, user env, insert_fault env with
  | Some (isFake, result), Some uid, NoFault => [Scan.mk productNumber uid isFake result]
  | _, _, _ => []
  end.

Definition P100 : Product.t :=
  Product.mk (str "id-1") widget (generateProductHash widget) None None.

Definition P200 : Product.t :=
  Product.mk (str "id-2")
    (ProductAttrs.mk (str "P-200") (str "Gadget") (str "Acme")
       (str "2019-01-01") (str "2020-01-01"))
    (generateProductHash
       (ProductAttrs.mk (str "P-200") (str "Gadget") (str "Acme")
          (str "2019-01-01") (str "2020-01-01")))
    None None.

Definition example_env (u : option jsstring) (lf wf : Fault) : ScanEnv :=
  mkScanEnv example_host [P100; P200] u lf wf.

Definition alice : option jsstring := Some (str "alice").

Definition fresh_page : ScanState := mkScanState None None false [] [] [].

Definition zeros64 : jsstring := repeat 48 64.

Definition status_after (env : ScanEnv) (n : jsstring) (h : option jsstring)
  : option VerificationStatus :=
  verificationStatus (snd (verifyProduct env n h fresh_page)).

Definition scans_after (env : ScanEnv) (n : jsstring) (h : option jsstring) : list Scan.t :=
  scans (snd (verifyProduct env n h fresh_page)).

(** The decision table as the specification words it: not found, then
    expiry, then the fingerprint when one is supplied, else original. *)
Definition decision_table (h : Host) (product : option Product.t)
    (fingerprint : option jsstring) : VerificationStatus :=
  match product with
  | None => unknown
  | Some p =>
      if isProductExpired h (Product.expiry_date p) then expired
      else
        match fingerprint with
        | Some f =>
            if jsstring_eqb f (generateProductHash (Product.attrs p))
               && jsstring_eqb f (Product.qr_hash p)
            then original else fake
        | None => original
        end
  end.

Definition flagged (status : VerificationStatus) : bool :=
  match status with
  | original => false
  | _ => true
  end.

(** The reason recorded for a status; original is reached with a verified
    fingerprint or by manual entry. *)
Definition reason (status : VerificationStatus) (withHash : bool) : jsstring :=
  match status with
  | unknown => str "Product not found in database"
  | expired => str "Product expired"
  | fake => str "Hash mismatch - Fake"
  | original =>
      if withHash then str "Hash verified - Original"
      else str "Manual verification - Product exists"
  end.

(** The same call in a world where the request is served and the table has
    no such product. *)
Definition not_found_env (env : ScanEnv) : ScanEnv :=
  mkScanEnv (host env) [] (user env) NoFault (insert_fault env).

(** The invariant of a row of [products]: the stored fingerprint is the
    fingerprint of the five attributes stored beside it. *)
Definition fingerprint_ok (row : Product.t) : Prop :=
  Product.qr_hash row = generateProductHash (Product.attrs row).

(** A write of [submit_write]: the row is new or rewritten from the form. *)
Definition written_from (form : ProductAttrs.t) (row : Product.t) : Prop :=
  Product.attrs row = form /\ Product.qr_hash row = generateProductHash form.

Definition rows_kept_or_written (form : ProductAttrs.t) (old new : list Product.t) : Prop :=
  forall row, In row new -> In row old \/ written_from form row.

(** A create and an update, with a stand-in for the QR renderer. *)
Definition example_admin : AdminEnv :=
  mkAdminEnv (fun payload => Ok (str "data:image/png;base64," ++ payload))
    NoImageSelected NoFault (str "id-3").

Definition gizmo : ProductAttrs.t :=
  ProductAttrs.mk (str "P-300") (str "Gizmo") (str "Acme") (str "2025-01-01") (str "2031-01-01").

Definition creating : AdminState := mkAdminState [P100; P200] gizmo None true [] [].

Definition renamed : ProductAttrs.t :=
  ProductAttrs.mk (str "P-100") (str "Widget 2") (str "Acme") (str "2024-01-01") (str "2030-01-01").

Definition updating : AdminState := mkAdminState [P100; P200] renamed (Some P100) true [] [].

(* ------------------------------------------------------------------ *)
(** ** The scan page: the handlers around [verifyProduct] *)

(** WhiteSpace and LineTerminator code units: what [String.prototype.trim]
    removes at both ends. *)
Definition is_trim_whitespace (c : N) : bool :=
  (c =? 9) || (c =? 10) || (c =? 11) || (c =? 12) || (c =? 13) || (c =? 32)
  || (c =? 160) || (c =? 5760) || ((8192 <=? c) && (c <=? 8202))
  || (c =? 8232) || (c =? 8233) || (c =? 8239) || (c =? 8287)
  || (c =? 12288) || (c =? 65279).

Fixpoint drop_while (f : N -> bool) (s : jsstring) : jsstring :=
  match s with
  | [] => []
  | c :: r => if f c then drop_while f r else s
  end.

Definition trim (s : jsstring) : jsstring :=
  rev (drop_while is_trim_whitespace (rev (drop_while is_trim_whitespace s))).

(** The component state of [ScanProduct]: the text of the input box beside
    what [verifyProduct] works on. *)
Record ScanPage := mkScanPage {
  productNo : jsstring;
  scan : ScanState
}.

(** A computation on the verification state, run inside the page. *)
Definition on_scan {A} (m : M ScanState A) : M ScanPage A :=
  fun p =>
    match m (scan p) with
    | (r, s') => (r, mkScanPage (productNo p) s')
    end.

Definition setProductNo (v : jsstring) : M ScanPage unit :=
  modify (fun p => mkScanPage v (scan p)).

(** [if (!productNo.trim()) return; await verifyProduct(productNo.trim());] *)
Definition handleManualSearch (env : ScanEnv) : M ScanPage unit :=
  fun p =>
    match trim (productNo p) with
    | [] => ret tt p
    | n => on_scan (verifyProduct env n None) p
    end.

Definition resetScan : M ScanPage unit :=
  on_scan (setVerificationStatus None) ;;
  on_scan (setProductDetails None) ;;
  setProductNo [].

(** The value of a property read: [undefined] or a JSON value. *)
Inductive JSValue :=
| JSUndefined
| JSValueOf (v : JSON).

Fixpoint get_prop (props : list (jsstring * JSON)) (k : jsstring) : JSValue :=
  match props with
  | [] => JSUndefined
  | (k', v) :: r => if jsstring_eqb k' k then JSValueOf v else get_prop r k
  end.

(** [payload.hash] and [payload.product_no] on a parsed value: an own
    property of an object; no prototype defines either name, so on arrays
    and primitives the read gives [undefined]. *)
Definition payload_property (payload : JSON) (k : jsstring) : JSValue :=
  match payload with
  | JObject props => get_prop props k
  | _ => JSUndefined
  end.

(** The mantissa of a number lexeme has no digit other than 0. *)
Fixpoint mantissa_is_zero (lexeme : jsstring) : bool :=
  match lexeme with
  | [] => true
  | c :: r =>
      if (c =? 101) || (c =? 69) then true
      else if (49 <=? c) && (c <=? 57) then false
      else mantissa_is_zero r
  end.

(** ToBoolean of a parsed value.  A number whose mantissa is zero is zero,
    hence falsy; for any other number the answer depends on its double
    value, which the lexeme alone does not give: [None]. *)
Definition ToBoolean (v : JSON) : option bool :=
  match v with
  | JNull => Some false
  | JBool b => Some b
  | JNumber lexeme => if mantissa_is_zero lexeme then Some false else None
  | JString [] => Some false
  | JString (_ :: _) => Some true
  | JArray _ => Some true
  | JObject _ => Some true
  end.

(** [handleQRScan]: a payload that decodes to something truthy is verified
    with its [product_no] and [hash]; anything else is tried as a plain
    product number.  [verifyProduct] takes a string and an optional string:
    the result is [None] when the decoded payload would hand it anything
    else (or is a number whose truth value the lexeme does not decide). *)
Definition handleQRScan (env : ScanEnv) (scanned : jsstring) : option (M ScanPage unit) :=
  match decodeQRPayload scanned with
  | Throw e => Some (throw e)
  | Ok payload =>
      match ToBoolean payload with
      | Some true =>
          match payload_property payload (str "product_no"),
                payload_property payload (str "hash") with
          | JSValueOf (JString n), JSValueOf (JString h) =>
              Some (setProductNo n ;; on_scan (verifyProduct env n (Some h)))
          | JSValueOf (JString n), JSUndefined =>
              Some (setProductNo n ;; on_scan (verifyProduct env n None))
          | _, _ => None
          end
      | Some false =>
          (* Try as plain product number *)
          Some (setProductNo scanned ;; on_scan (verifyProduct env scanned None))
      | None => None
      end
  end.

(* ------------------------------------------------------------------ *)
(** ** The product-management page: edit, delete, image removal *)

(** [handleEdit(product)]: the form takes the five attributes of the row. *)
Definition handleEdit (product : Product.t) : M AdminState unit :=
  modify (fun s => mkAdminState (table s) (Product.attrs product) (Some product) true
                     (admin_toasts s) (admin_console s)).

(** [handleDialogClose(open)] *)
Definition handleDialogClose (open : bool) : M AdminState unit :=
  modify (fun s =>
            if open
            then mkAdminState (table s) (formData s) (editingProduct s) open
                   (admin_toasts s) (admin_console s)
            else mkAdminState (table s) emptyForm None open
                   (admin_toasts s) (admin_console s)).

(** [supabase.from('products').delete().eq('id', id)] *)
Definition delete_product (env : AdminEnv) (id : jsstring) : M AdminState unit :=
  match write_fault env with
  | NoFault =>
      s <- (fun s => (Ok s, s)) ;;
      set_table (filter (fun row => negb (jsstring_eqb (Product.id row) id)) (table s))
  | ReturnsError => ret tt
  | Throws => throw HostError
  end.

(** [handleDelete] of the first version of the page. *)
Definition handleDelete_v1 (env : AdminEnv) (id : jsstring) : M AdminState unit :=
  delete_product env id ;;
  admin_toast (str "Product Deleted").

(** The page together with the files of the [product-images] bucket. *)
Record AdminStore := mkAdminStore {
  admin : AdminState;
  bucket : list jsstring
}.

Definition on_admin {A} (m : M AdminState A) : M AdminStore A :=
  fun p =>
    match m (admin p) with
    | (r, s') => (r, mkAdminStore s' (bucket p))
    end.

(** [String.prototype.split] on a one-unit separator. *)
Fixpoint split_on (sep : N) (s : jsstring) : list jsstring :=
  match s with
  | [] => [[]]
  | c :: r =>
      if c =? sep then [] :: split_on sep r
      else
        match split_on sep r with
        | part :: parts => (c :: part) :: parts
        | [] => [[c]]
        end
  end.

(** [Array.prototype.join] with a one-unit separator. *)
Fixpoint join (sep : N) (parts : list jsstring) : jsstring :=
  match parts with
  | [] => []
  | [part] => part
  | part :: rest => part ++ sep :: join sep rest
  end.

(** [Array.prototype.findIndex]; [None] is -1. *)
Fixpoint findIndex {A} (f : A -> bool) (l : list A) : option nat :=
  match l with
  | [] => None
  | x :: r =>
      if f x then Some O
      else match findIndex f r with
           | Some i => Some (S i)
           | None => None
           end
  end.

(** [supabase.storage.from('product-images').remove([path])]: the result
    says whether the client reported an error. *)
Definition storage_remove (storage_fault : Fault) (path : jsstring) : M AdminStore bool :=
  match storage_fault with
  | NoFault =>
      fun p => (Ok false,
                mkAdminStore (admin p)
                  (filter (fun q => negb (jsstring_eqb q path)) (bucket p)))
  | ReturnsError => ret true
  | Throws => throw HostError
  end.

Definition deleteImage (storage_fault : Fault) (imageUrl : jsstring) : M AdminStore unit :=
  try_catch
    (match imageUrl with
     | [] => ret tt                                      (* if (!imageUrl) return; *)
     | _ =>
         let urlParts := split_on 47 imageUrl in
         match findIndex (fun part => jsstring_eqb part (str "products")) urlParts with
         | Some productsIndex =>
             let filePath := join 47 (skipn productsIndex urlParts) in
             failed <- storage_remove storage_fault filePath ;;
             if failed
             then on_admin (admin_console_error (str "Error deleting image from storage:"))
             else ret tt
         | None => ret tt
         end
     end)
    (fun _ => on_admin (admin_console_error (str "Error deleting image:"))).

(** [handleDelete] of the page with product images; [shown] is the
    [products] state the page displays. *)
Definition handleDelete (env : AdminEnv) (storage_fault : Fault)
    (shown : list Product.t) (id : jsstring) : M AdminStore unit :=
  match find (fun p => jsstring_eqb (Product.id p) id) shown with
  | Some product =>
      match Product.product_image product with
      | Some (c :: url) => deleteImage storage_fault (c :: url)
      | _ => ret tt
      end
  | None => ret tt
  end ;;
  on_admin (delete_product env id) ;;
  on_admin (admin_toast (str "Product Deleted")).

(* ------------------------------------------------------------------ *)
(** ** Vocabulary of the further properties *)

(** A field that does not contain the delimiter of the fingerprint. *)
Definition delimiter_free (s : jsstring) : bool :=
  forallb (fun c => negb (c =? 124)) s.

(** The units a token is made of: the base64 alphabet and [=]. *)
Definition is_token_unit (c : N) : bool := is_b64 c || (c =? pad).

(** The title of the one toast of a branch of [verifyProduct]. *)
Definition branch_title (b : Branch) : jsstring :=
  match b with
  | BNotFound => str "Product Not Found"
  | BExpired => str "Product Expired"
  | BVerified => str "Product Verified!"
  | BMismatch => str "Warning: Counterfeit Detected"
  | BManual => str "Product Found"
  | BCaught => str "Verification Error"
  end.

(** The product details a branch leaves on the page. *)
Definition branch_details (env : ScanEnv) (productNumber : jsstring) (b : Branch)
  : option Product.t :=
  match b with
  | BNotFound | BCaught => None
  | _ => found env productNumber
  end.

(** The same world at another time. *)
Definition at_time (now : Z) (env : ScanEnv) : ScanEnv :=
  mkScanEnv (mkHost (Date_parse (host env)) now) (products env) (user env)
    (lookup_fault env) (insert_fault env).

(** The row of [P100] after its name was changed behind the page's back:
    the stored fingerprint is still that of the old attributes. *)
Definition tampered : Product.t :=
  Product.mk (str "id-1") renamed (generateProductHash widget) None None.

Definition tampered_env : ScanEnv := mkScanEnv example_host [tampered; P200] alice NoFault NoFault.

(** The row a served create writes for the form of a page. *)
Definition created_row (env : AdminEnv) (st : AdminState) (qrImage : jsstring) : Product.t :=
  Product.mk (fresh_id env) (formData st) (generateProductHash (formData st))
    (Some qrImage) None.

(** The payload [handleSubmit] encodes for the form of a page. *)
Definition form_payload (st : AdminState) : QRPayload.t :=
  QRPayload.mk (generateProductHash (formData st)) (ProductAttrs.product_no (formData st)).

(** The token and the QR image of the product created in the example. *)
Definition gizmo_token : jsstring :=
  match encodeQRPayload (form_payload creating) with
  | Ok token => token
  | Throw _ => []
  end.

Definition gizmo_image : jsstring := str "data:image/png;base64," ++ gizmo_token.

Definition after_create : ScanEnv :=
  mkScanEnv example_host (table (snd (handleSubmit example_admin creating))) alice
    NoFault NoFault.

(** A form whose product number has a letter outside Latin-1. *)
Definition omega_form : AdminState :=
  mkAdminState [P100; P200]
    (ProductAttrs.mk [937] (str "Gizmo") (str "Acme") (str "2025-01-01") (str "2031-01-01"))
    None true [] [].

(** The write of an update, as [update_product] applies it to the table. *)
Definition updated_table (u : UpdateData) (id : jsstring) (rows : list Product.t)
  : list Product.t :=
  map (fun row => if jsstring_eqb (Product.id row) id then apply_update u row else row) rows.

(** A product with an image, the page that shows it and the bucket. *)
Definition pictured : Product.t :=
  Product.mk (str "id-1") widget (generateProductHash widget) None
    (Some (str "https://x.supabase.co/storage/v1/object/public/product-images/products/a.jpg")).

Definition pictured_store : AdminStore :=
  mkAdminStore (mkAdminState [pictured; P200] emptyForm None false [] [])
    [str "products/b.jpg"; str "products/a.jpg"].

(** The JSON text of an object that has a product number and no hash. *)
Definition hashless_text (productNumber : jsstring) : jsstring :=
  [123] ++ QuoteJSONString (str "product_no") ++ [58]
  ++ QuoteJSONString productNumber ++ [125].

(* ================================================================== *)
(** * Properties *)


(** ** Checking a property of bytes by running it on all of them *)

Lemma in_below (n : nat) (x : N) : x < N.of_nat n -> In x (below n).
Proof.
  intros Hx. unfold below. apply in_map_iff.
  exists (N.to_nat x). split; [lia|]. apply in_seq. lia.
Qed.

Lemma forall_below (n : nat) (P : N -> bool) :
  forallb P (below n) = true -> forall x, x < N.of_nat n -> P x = true.
Proof.
  intros H x Hx. rewrite forallb_forall in H. apply H, in_below, Hx.
Qed.

Lemma forall_below2 (n m : nat) (P : N -> N -> bool) :
  forallb (fun a => forallb (P a) (below m)) (below n) = true ->
  forall a b, a < N.of_nat n -> b < N.of_nat m -> P a b = true.
Proof.
  intros H a b Ha Hb.
  apply (forall_below m (P a)); [|exact Hb].
  apply (forall_below n (fun a => forallb (P a) (below m))); assumption.
Qed.

Lemma latin1_lt (c : N) : is_latin1 c = true -> c < N.of_nat 256.
Proof. unfold is_latin1. intros H. apply N.leb_le in H. lia. Qed.

(** ** Base64 *)

Lemma good_digit_s0 a : is_latin1 a = true -> good_digit (s0 a) = true.
Proof.
  intros Ha. apply (forall_below 256 (fun a => good_digit (s0 a)));
    [vm_compute; reflexivity | apply latin1_lt, Ha].
Qed.

Lemma good_digit_s1 a b :
  is_latin1 a = true -> is_latin1 b = true -> good_digit (s1 a b) = true.
Proof.
  intros Ha Hb.
  apply (forall_below2 256 256 (fun a b => good_digit (s1 a b)));
    [vm_compute; reflexivity | apply latin1_lt; assumption | apply latin1_lt; assumption].
Qed.

Lemma good_digit_s2 b c :
  is_latin1 b = true -> is_latin1 c = true -> good_digit (s2 b c) = true.
Proof.
  intros Hb Hc.
  apply (forall_below2 256 256 (fun b c => good_digit (s2 b c)));
    [vm_compute; reflexivity | apply latin1_lt; assumption | apply latin1_lt; assumption].
Qed.

Lemma good_digit_s3 c : is_latin1 c = true -> good_digit (s3 c) = true.
Proof.
  intros Hc. apply (forall_below 256 (fun c => good_digit (s3 c)));
    [vm_compute; reflexivity | apply latin1_lt, Hc].
Qed.

Lemma good_digit_inv x :
  good_digit x = true ->
  sextet (b64char x) = x /\ is_b64 (b64char x) = true
  /\ is_ascii_whitespace (b64char x) = false /\ (b64char x =? pad) = false.
Proof.
  unfold good_digit, sextet, is_b64. intros H.
  apply andb_prop in H. destruct H as [H Hp].
  apply andb_prop in H. destruct H as [Hi Hw].
  apply negb_true_iff in Hp. apply negb_true_iff in Hw.
  destruct (b64index (b64char x)) as [i|]; [|discriminate].
  apply N.eqb_eq in Hi. subst i. repeat split; assumption.
Qed.

(** Reassembling the bytes from the sextets. *)
Lemma byte0_back a b :
  is_latin1 a = true -> is_latin1 b = true ->
  N.lor (N.shiftl (s0 a) 2) (N.shiftr (s1 a b) 4) = a.
Proof.
  intros Ha Hb. apply N.eqb_eq.
  apply (forall_below2 256 256
           (fun a b => N.lor (N.shiftl (s0 a) 2) (N.shiftr (s1 a b) 4) =? a));
    [vm_compute; reflexivity | apply latin1_lt; assumption | apply latin1_lt; assumption].
Qed.

Lemma nibble_hi a b :
  is_latin1 a = true -> is_latin1 b = true -> N.land (s1 a b) 15 = N.shiftr b 4.
Proof.
  intros Ha Hb. apply N.eqb_eq.
  apply (forall_below2 256 256 (fun a b => N.land (s1 a b) 15 =? N.shiftr b 4));
    [vm_compute; reflexivity | apply latin1_lt; assumption | apply latin1_lt; assumption].
Qed.

Lemma nibble_lo b c :
  is_latin1 b = true -> is_latin1 c = true -> N.shiftr (s2 b c) 2 = N.land b 15.
Proof.
  intros Hb Hc. apply N.eqb_eq.
  apply (forall_below2 256 256 (fun b c => N.shiftr (s2 b c) 2 =? N.land b 15));
    [vm_compute; reflexivity | apply latin1_lt; assumption | apply latin1_lt; assumption].
Qed.

Lemma nibbles_join b :
  is_latin1 b = true -> N.lor (N.shiftl (N.shiftr b 4) 4) (N.land b 15) = b.
Proof.
  intros Hb. apply N.eqb_eq.
  apply (forall_below 256 (fun b => N.lor (N.shiftl (N.shiftr b 4) 4) (N.land b 15) =? b));
    [vm_compute; reflexivity | apply latin1_lt, Hb].
Qed.

Lemma byte1_back a b c :
  is_latin1 a = true -> is_latin1 b = true -> is_latin1 c = true ->
  N.lor (N.shiftl (N.land (s1 a b) 15) 4) (N.shiftr (s2 b c) 2) = b.
Proof.
  intros Ha Hb Hc. rewrite nibble_hi, nibble_lo by assumption.
  apply nibbles_join, Hb.
Qed.

Lemma byte2_back b c :
  is_latin1 b = true -> is_latin1 c = true ->
  N.lor (N.shiftl (N.land (s2 b c) 3) 6) (s3 c) = c.
Proof.
  intros Hb Hc. apply N.eqb_eq.
  apply (forall_below2 256 256
           (fun b c => N.lor (N.shiftl (N.land (s2 b c) 3) 6) (s3 c) =? c));
    [vm_compute; reflexivity | apply latin1_lt; assumption | apply latin1_lt; assumption].
Qed.

(** Induction on a list three elements at a time. *)
Lemma list_triple_ind (A : Type) (P : list A -> Prop) :
  P [] -> (forall a, P [a]) -> (forall a b, P [a; b]) ->
  (forall a b c r, P r -> P (a :: b :: c :: r)) ->
  forall l, P l.
Proof.
  intros H0 H1 H2 H3 l.
  assert (G : P l /\ (forall a, P (a :: l)) /\ (forall a b, P (a :: b :: l))).
  { induction l as [|x l [IH0 [IH1 IH2]]].
    - repeat split; auto.
    - repeat split; auto. }
  apply G.
Qed.

Lemma drop_trailing_pad_cons c r :
  (c =? pad) = false -> drop_trailing_pad (c :: r) = c :: drop_trailing_pad r.
Proof.
  intros Hc. simpl. destruct r as [|c' [|c'' r]]; rewrite ?Hc; reflexivity.
Qed.

Lemma latin1_0 : is_latin1 0 = true.
Proof. reflexivity. Qed.

Ltac digit_facts :=
  repeat match goal with
    | H : is_latin1 _ = true |- _ => revert H
    end;
  intros;
  repeat match goal with
    | |- context [b64char (s0 ?a)] =>
        lazymatch goal with
        | _ : sextet (b64char (s0 a)) = _ |- _ => fail
        | _ => destruct (good_digit_inv _ (good_digit_s0 a ltac:(assumption)))
                 as (? & ? & ? & ?)
        end
    | |- context [b64char (s3 ?a)] =>
        lazymatch goal with
        | _ : sextet (b64char (s3 a)) = _ |- _ => fail
        | _ => destruct (good_digit_inv _ (good_digit_s3 a ltac:(assumption)))
                 as (? & ? & ? & ?)
        end
    | |- context [b64char (s1 ?a ?b)] =>
        lazymatch goal with
        | _ : sextet (b64char (s1 a b)) = _ |- _ => fail
        | _ => destruct (good_digit_inv _ (good_digit_s1 a b ltac:(first [assumption | exact latin1_0])
                                                            ltac:(first [assumption | exact latin1_0])))
                 as (? & ? & ? & ?)
        end
    | |- context [b64char (s2 ?a ?b)] =>
        lazymatch goal with
        | _ : sextet (b64char (s2 a b)) = _ |- _ => fail
        | _ => destruct (good_digit_inv _ (good_digit_s2 a b ltac:(first [assumption | exact latin1_0])
                                                            ltac:(first [assumption | exact latin1_0])))
                 as (? & ? & ? & ?)
        end
    end.

Lemma base64_encode_1 a :
  base64_encode [a] = [b64char (s0 a); b64char (s1 a 0); pad; pad].
Proof. unfold s1. change (N.shiftr 0 4) with 0. rewrite N.lor_0_r. reflexivity. Qed.

Lemma base64_encode_2 a b :
  base64_encode [a; b] = [b64char (s0 a); b64char (s1 a b); b64char (s2 b 0); pad].
Proof. unfold s2. change (N.shiftr 0 6) with 0. rewrite N.lor_0_r. reflexivity. Qed.

Ltac keep_digits :=
  repeat match goal with
    | Hw : is_ascii_whitespace _ = false |- _ => rewrite Hw; clear Hw
    end.

Lemma base64_encode_shape bs :
  forallb is_latin1 bs = true ->
  filter (fun c => negb (is_ascii_whitespace c)) (base64_encode bs) = base64_encode bs
  /\ Nat.modulo (length (base64_encode bs)) 4 = 0%nat
  /\ drop_trailing_pad (base64_encode bs) = base64_digits bs.
Proof.
  induction bs as [|a|a b|a b c r IH] using list_triple_ind; simpl forallb; intros H.
  - split; [|split]; reflexivity.
  - rewrite andb_true_r in H.
    rewrite base64_encode_1.
    cbn [base64_digits]. digit_facts.
    split; [|split].
    + cbn [filter]. keep_digits. reflexivity.
    + reflexivity.
    + rewrite !drop_trailing_pad_cons by assumption. reflexivity.
  - apply andb_prop in H. destruct H as [Ha H]. rewrite andb_true_r in H.
    rewrite base64_encode_2.
    cbn [base64_digits]. digit_facts.
    split; [|split].
    + cbn [filter]. keep_digits. reflexivity.
    + reflexivity.
    + rewrite !drop_trailing_pad_cons by assumption. reflexivity.
  - apply andb_prop in H. destruct H as [Ha H].
    apply andb_prop in H. destruct H as [Hb H].
    apply andb_prop in H. destruct H as [Hc H].
    destruct (IH H) as (IHf & IHl & IHd).
    change (base64_encode (a :: b :: c :: r))
      with (b64char (s0 a) :: b64char (s1 a b) :: b64char (s2 b c) :: b64char (s3 c)
            :: base64_encode r).
    cbn [base64_digits]. digit_facts.
    split; [|split].
    + cbn [filter]. keep_digits. cbn [negb]. rewrite IHf. reflexivity.
    + cbn [length].
      change (S (S (S (S (length (base64_encode r))))))
        with (4 + length (base64_encode r))%nat.
      rewrite <- (Nat.Div0.add_mod_idemp_r 4 _ 4), IHl. reflexivity.
    + rewrite !drop_trailing_pad_cons by assumption. rewrite IHd. reflexivity.
Qed.

Ltac use_digits :=
  repeat match goal with
    | Hs : sextet (b64char ?x) = ?x |- _ => rewrite Hs; clear Hs
    | Hb : is_b64 (b64char _) = true |- _ => rewrite Hb; clear Hb
    end.

Lemma base64_digits_decode bs :
  forallb is_latin1 bs = true ->
  Nat.eqb (Nat.modulo (length (base64_digits bs)) 4) 1 = false
  /\ forallb is_b64 (base64_digits bs) = true
  /\ base64_decode_groups (base64_digits bs) = bs.
Proof.
  induction bs as [|a|a b|a b c r IH] using list_triple_ind; simpl forallb; intros H.
  - split; [|split]; reflexivity.
  - rewrite andb_true_r in H.
    cbn [base64_digits]. digit_facts.
    split; [|split].
    + reflexivity.
    + cbn [forallb]. use_digits. reflexivity.
    + cbn [base64_decode_groups]. use_digits.
      rewrite byte0_back by (assumption || reflexivity). reflexivity.
  - apply andb_prop in H. destruct H as [Ha H]. rewrite andb_true_r in H.
    cbn [base64_digits]. digit_facts.
    split; [|split].
    + reflexivity.
    + cbn [forallb]. use_digits. reflexivity.
    + cbn [base64_decode_groups]. use_digits.
      rewrite byte0_back, byte1_back by (assumption || reflexivity). reflexivity.
  - apply andb_prop in H. destruct H as [Ha H].
    apply andb_prop in H. destruct H as [Hb H].
    apply andb_prop in H. destruct H as [Hc H].
    destruct (IH H) as (IHl & IHf & IHd).
    cbn [base64_digits]. digit_facts.
    split; [|split].
    + cbn [length].
      change (S (S (S (S (length (base64_digits r))))))
        with (4 + length (base64_digits r))%nat.
      rewrite <- (Nat.Div0.add_mod_idemp_l 4 _ 4).
      exact IHl.
    + cbn [forallb]. use_digits. exact IHf.
    + cbn [base64_decode_groups]. use_digits.
      rewrite byte0_back, byte1_back, byte2_back, IHd by assumption. reflexivity.
Qed.

(** [atob] undoes [btoa]. *)
Lemma atob_btoa (data token : jsstring) :
  btoa data = Ok token -> atob token = Ok data.
Proof.
  unfold btoa. destruct (forallb is_latin1 data) eqn:H; [|discriminate].
  intros E. injection E as <-.
  destruct (base64_encode_shape data H) as (Hf & Hl & Hd).
  destruct (base64_digits_decode data H) as (Hm & Ha & Hg).
  unfold atob, forgiving_base64_decode.
  rewrite Hf, Hl. cbn [Nat.eqb]. rewrite Hd, Hm, Ha, Hg. reflexivity.
Qed.

(** ** JSON strings: the lexer reads back what QuoteJSONString wrote *)

Lemma lex_silent m c m' r :
  lex_step m c = Some ([], m') -> lex m (c :: r) = lex m' r.
Proof.
  intros H. cbn [lex]. rewrite H. destruct (lex m' r); reflexivity.
Qed.

Lemma lex_raw c acc t :
  32 <= c -> c <> 34 -> c <> 92 -> lex (LStr acc) (c :: t) = lex (LStr (c :: acc)) t.
Proof.
  intros H32 H34 H92. apply lex_silent. cbn [lex_step].
  apply N.eqb_neq in H34, H92. rewrite H34, H92.
  destruct (c <? 32) eqn:E; [apply N.ltb_lt in E; lia | reflexivity].
Qed.

Lemma hex_value_digit d : d < 16 -> hex_value (hex_digit d) = Some d.
Proof.
  intros Hd.
  assert (G : (match hex_value (hex_digit d) with Some x => x =? d | None => false end) = true).
  { apply (forall_below 16
             (fun d => match hex_value (hex_digit d) with Some x => x =? d | None => false end));
      [vm_compute; reflexivity | exact Hd]. }
  destruct (hex_value (hex_digit d)); [|discriminate].
  apply N.eqb_eq in G. now subst.
Qed.

Lemma nibble_lt x : N.land x 15 < 16.
Proof.
  change 15 with (N.ones 4). rewrite N.land_ones.
  apply N.mod_lt. discriminate.
Qed.

Lemma nibbles_value c :
  c < 65536 ->
  16 * (16 * (16 * (16 * 0 + N.land (N.shiftr c 12) 15) + N.land (N.shiftr c 8) 15)
        + N.land (N.shiftr c 4) 15) + N.land c 15 = c.
Proof.
  intros Hc. change 15 with (N.ones 4). rewrite !N.land_ones, !N.shiftr_div_pow2.
  change (2 ^ 4) with 16. change (2 ^ 8) with 256. change (2 ^ 12) with 4096.
  assert (D2 : c / 256 = c / 16 / 16) by (rewrite N.Div0.div_div; reflexivity).
  assert (D3 : c / 4096 = c / 256 / 16) by (rewrite N.Div0.div_div; reflexivity).
  assert (E1 := N.div_mod c 16 ltac:(discriminate)).
  assert (E2 := N.div_mod (c / 16) 16 ltac:(discriminate)).
  assert (E3 := N.div_mod (c / 256) 16 ltac:(discriminate)).
  assert (L : c / 4096 < 16) by (apply N.Div0.div_lt_upper_bound; exact Hc).
  rewrite (N.mod_small (c / 4096) 16 L).
  rewrite <- D2 in E2. rewrite <- D3 in E3.
  lia.
Qed.

Lemma lex_unicode_escape c acc t :
  c < 65536 ->
  lex (LStr acc) (unicode_escape c ++ t) = lex (LStr (c :: acc)) t.
Proof.
  intros Hc. unfold unicode_escape. cbn [app].
  rewrite (lex_silent (LStr acc) 92 (LEsc acc)) by reflexivity.
  rewrite (lex_silent (LEsc acc) 117 (LHex acc 3 0)) by reflexivity.
  erewrite lex_silent
    by (cbn [lex_step]; rewrite hex_value_digit by apply nibble_lt; reflexivity).
  erewrite lex_silent
    by (cbn [lex_step]; rewrite hex_value_digit by apply nibble_lt; reflexivity).
  erewrite lex_silent
    by (cbn [lex_step]; rewrite hex_value_digit by apply nibble_lt; reflexivity).
  erewrite lex_silent
    by (cbn [lex_step]; rewrite hex_value_digit by apply nibble_lt; reflexivity).
  rewrite nibbles_value by exact Hc. reflexivity.
Qed.

Lemma surrogate_lt c : is_surrogate c = true -> c < 65536.
Proof.
  unfold is_surrogate. intros H. apply andb_prop in H. destruct H as [_ H].
  apply N.leb_le in H. lia.
Qed.

Ltac two_silent :=
  cbn [app]; do 2 (erewrite lex_silent by reflexivity); reflexivity.

Lemma lex_quote_unit c acc t :
  lex (LStr acc) (quote_unit c ++ t) = lex (LStr (c :: acc)) t.
Proof.
  unfold quote_unit.
  destruct (c =? 8) eqn:E8; [apply N.eqb_eq in E8; subst; two_silent|].
  destruct (c =? 9) eqn:E9; [apply N.eqb_eq in E9; subst; two_silent|].
  destruct (c =? 10) eqn:E10; [apply N.eqb_eq in E10; subst; two_silent|].
  destruct (c =? 12) eqn:E12; [apply N.eqb_eq in E12; subst; two_silent|].
  destruct (c =? 13) eqn:E13; [apply N.eqb_eq in E13; subst; two_silent|].
  destruct (c =? 34) eqn:E34; [apply N.eqb_eq in E34; subst; two_silent|].
  destruct (c =? 92) eqn:E92; [apply N.eqb_eq in E92; subst; two_silent|].
  destruct (c <? 32) eqn:E32; cbn [orb].
  - apply lex_unicode_escape. apply N.ltb_lt in E32. lia.
  - destruct (is_surrogate c) eqn:Es.
    + apply lex_unicode_escape, surrogate_lt, Es.
    + cbn [app]. apply lex_raw.
      * apply N.ltb_ge in E32. exact E32.
      * apply N.eqb_neq, E34.
      * apply N.eqb_neq, E92.
Qed.

Lemma high_surrogate_raw c : is_high_surrogate c = true -> 32 <= c /\ c <> 34 /\ c <> 92 /\ c < 65536.
Proof.
  unfold is_high_surrogate. intros H. apply andb_prop in H. destruct H as [H1 H2].
  apply N.leb_le in H1, H2. lia.
Qed.

Lemma low_surrogate_raw c : is_low_surrogate c = true -> 32 <= c /\ c <> 34 /\ c <> 92.
Proof.
  unfold is_low_surrogate. intros H. apply andb_prop in H. destruct H as [H1 H2].
  apply N.leb_le in H1, H2. lia.
Qed.

Lemma lex_quote_body_bounded (n : nat) :
  forall s acc t, (length s <= n)%nat ->
    lex (LStr acc) (quote_body s ++ t) = lex (LStr (rev s ++ acc)) t.
Proof.
  induction n as [|n IH]; intros s acc t Hn.
  - destruct s; [reflexivity | simpl in Hn; lia].
  - destruct s as [|c r]; [reflexivity|].
    cbn [length] in Hn. cbn [quote_body rev].
    rewrite <- app_assoc. cbn [app].
    destruct (is_high_surrogate c) eqn:Hh.
    + destruct (high_surrogate_raw c Hh) as (A1 & A2 & A3 & A4).
      destruct r as [|d r'].
      * rewrite lex_unicode_escape by exact A4. reflexivity.
      * destruct (is_low_surrogate d) eqn:Hl.
        -- destruct (low_surrogate_raw d Hl) as (B1 & B2 & B3).
           cbn [app]. rewrite lex_raw, lex_raw by assumption.
           rewrite IH by (cbn [length] in Hn; lia).
           cbn [rev]. rewrite <- !app_assoc. reflexivity.
        -- rewrite <- app_assoc, lex_unicode_escape by exact A4.
           rewrite IH by lia. reflexivity.
    + rewrite <- app_assoc, lex_quote_unit.
      rewrite IH by lia. reflexivity.
Qed.

(** A quoted string lexes to one string token holding the original units. *)
Lemma lex_QuoteJSONString s t :
  lex LStart (QuoteJSONString s ++ t)
  = match lex LStart t with
    | Some tl => Some (TStr s :: tl)
    | None => None
    end.
Proof.
  unfold QuoteJSONString. cbn [app].
  rewrite (lex_silent LStart 34 (LStr [])) by reflexivity.
  rewrite <- app_assoc, (lex_quote_body_bounded (length s)) by lia.
  cbn [app lex lex_step]. change (34 =? 34) with true. cbv iota.
  rewrite app_nil_r, rev_involutive. reflexivity.
Qed.

Lemma lex_emit m c ts m' r :
  lex_step m c = Some (ts, m') ->
  lex m (c :: r) = match lex m' r with Some tl => Some (ts ++ tl) | None => None end.
Proof. intros H. cbn [lex]. rewrite H. reflexivity. Qed.

Lemma lex_JSON_stringify p :
  lex LStart (JSON_stringify p)
  = Some [TLBrace; TStr (str "hash"); TColon; TStr (QRPayload.hash p); TComma;
          TStr (str "product_no"); TColon; TStr (QRPayload.product_no p); TRBrace].
Proof.
  unfold JSON_stringify. cbn [app].
  rewrite (lex_emit LStart 123 [TLBrace] LStart) by reflexivity.
  rewrite lex_QuoteJSONString. cbn [app].
  rewrite (lex_emit LStart 58 [TColon] LStart) by reflexivity.
  rewrite lex_QuoteJSONString. cbn [app].
  rewrite (lex_emit LStart 44 [TComma] LStart) by reflexivity.
  rewrite lex_QuoteJSONString. cbn [app].
  rewrite (lex_emit LStart 58 [TColon] LStart) by reflexivity.
  rewrite lex_QuoteJSONString.
  reflexivity.
Qed.

(** [JSON.parse] reads back the object that [JSON.stringify] wrote. *)
Lemma JSON_parse_stringify p : JSON_parse (JSON_stringify p) = Ok (payload_value p).
Proof.
  unfold JSON_parse. rewrite lex_JSON_stringify. reflexivity.
Qed.

Lemma quote_body_latin1 s : forallb is_latin1 s = true -> forallb is_latin1 (quote_body s) = true.
Proof.
  induction s as [|c r IH]; [reflexivity|].
  cbn [forallb quote_body]. intros H. apply andb_prop in H. destruct H as [Hc Hr].
  assert (Hh : is_high_surrogate c = false).
  { unfold is_latin1 in Hc. apply N.leb_le in Hc. unfold is_high_surrogate.
    apply andb_false_iff. left. apply N.leb_gt. lia. }
  assert (Hs : is_surrogate c = false).
  { unfold is_latin1 in Hc. apply N.leb_le in Hc. unfold is_surrogate.
    apply andb_false_iff. left. apply N.leb_gt. lia. }
  rewrite Hh, forallb_app, (IH Hr), andb_true_r.
  unfold quote_unit.
  repeat match goal with
         | |- context [if ?c =? ?k then _ else _] => destruct (c =? k); [reflexivity|]
         end.
  rewrite Hs, orb_false_r.
  destruct (c <? 32) eqn:E.
  - assert (G : forallb is_latin1 (unicode_escape c) = true).
    { apply (forall_below 32 (fun c => forallb is_latin1 (unicode_escape c)));
        [vm_compute; reflexivity | apply N.ltb_lt in E; exact E]. }
    exact G.
  - cbn [forallb]. rewrite Hc. reflexivity.
Qed.

(** Strings of Latin-1 code units, the 64 hexadecimal digits of a fingerprint
    among them, give a well-formed payload. *)
Lemma latin1_well_formed p :
  forallb is_latin1 (QRPayload.hash p) = true ->
  forallb is_latin1 (QRPayload.product_no p) = true ->
  well_formed p = true.
Proof.
  intros Hf Hi. unfold well_formed, JSON_stringify, QuoteJSONString.
  repeat (rewrite ?forallb_app; cbn [forallb app]).
  rewrite (quote_body_latin1 _ Hf), (quote_body_latin1 _ Hi).
  reflexivity.
Qed.

(** C4. Round-trip law: for every well-formed payload [{ hash: f,
    product_no: id }] (one whose serialization [btoa] accepts, such as any
    pair of Latin-1 strings), [encodeQRPayload] returns a token and
    [decodeQRPayload] of that token is exactly the object with the two
    properties [hash = f] and [product_no = id]. *)
Theorem decode_encode_roundtrip (p : QRPayload.t) :
  well_formed p = true ->
  exists token,
    encodeQRPayload p = Ok token /\ decodeQRPayload token = Ok (payload_value p).
Proof.
  intros Hw. exists (base64_encode (JSON_stringify p)).
  assert (E : encodeQRPayload p = Ok (base64_encode (JSON_stringify p))).
  { unfold encodeQRPayload, btoa. unfold well_formed in Hw. rewrite Hw. reflexivity. }
  split; [exact E|].
  unfold decodeQRPayload. rewrite (atob_btoa _ _ E). cbn [exc_bind].
  rewrite JSON_parse_stringify. reflexivity.
Qed.

Lemma decode_encode_roundtrip_witness :
  well_formed scenario_payload = true /\
  exists token,
    encodeQRPayload scenario_payload = Ok token
    /\ decodeQRPayload token = Ok (payload_value scenario_payload).
Proof.
  split; [reflexivity|].
  apply (decode_encode_roundtrip scenario_payload). reflexivity.
Defined.

(** C10. [encodeQRPayload] is not total over strings: for every payload
    whose JSON serialization contains a code unit above 255 (an identifier
    with the letter U+03A9, for one), it throws InvalidCharacterError instead
    of returning a token. *)
Theorem encode_not_total (p : QRPayload.t) :
  (exists c, In c (JSON_stringify p) /\ 255 < c) ->
  encodeQRPayload p = Throw InvalidCharacterError.
Proof.
  intros (c & Hin & Hc). unfold encodeQRPayload, btoa.
  destruct (forallb is_latin1 (JSON_stringify p)) eqn:E; [|reflexivity].
  rewrite forallb_forall in E. specialize (E c Hin).
  unfold is_latin1 in E. apply N.leb_le in E. lia.
Qed.

Lemma encode_not_total_witness :
  (exists c, In c (JSON_stringify omega_payload) /\ 255 < c)
  /\ encodeQRPayload omega_payload = Throw InvalidCharacterError.
Proof.
  assert (H : exists c, In c (JSON_stringify omega_payload) /\ 255 < c).
  { exists 937. split; [|reflexivity].
    vm_compute. repeat (first [left; reflexivity | right]). }
  split; [exact H | exact (encode_not_total omega_payload H)].
Defined.

(** C3 as stated fails: the token [e30=] is base64 of the JSON text of an
    empty object, which has neither field, and [decodeQRPayload] returns that
    object, not [null]. *)
Lemma decode_wrong_structure_not_null :
  atob (str "e30=") = Ok (str "{}")
  /\ decodeQRPayload (str "e30=") = Ok (JObject [])
  /\ JObject [] <> JNull.
Proof.
  split; [reflexivity|]. split; [reflexivity|]. discriminate.
Qed.

(** C3, amended. [decodeQRPayload] never throws.  When the input is
    forgiving-base64 of a JSON text it returns the value [JSON.parse] gives,
    whatever its structure; in every other case (invalid base64, or base64 of
    a text that is not JSON) it returns [null]. *)
Theorem decode_total (encoded : jsstring) :
  (exists text v,
      atob encoded = Ok text /\ JSON_parse text = Ok v
      /\ decodeQRPayload encoded = Ok v)
  \/ ((atob encoded = Throw InvalidCharacterError
       \/ exists text, atob encoded = Ok text /\ JSON_parse text = Throw SyntaxError)
      /\ decodeQRPayload encoded = Ok JNull).
Proof.
  unfold decodeQRPayload.
  destruct (atob encoded) as [text|e] eqn:Ea.
  - cbn [exc_bind]. destruct (JSON_parse text) as [v|e] eqn:Ep.
    + left. exists text, v. auto.
    + right. split; [|reflexivity]. right. exists text. split; [reflexivity|].
      rewrite Ep. f_equal.
      unfold JSON_parse in Ep.
      destruct (lex LStart text); [destruct (parse_tokens _ _)|]; congruence.
  - right. split; [|reflexivity]. left. f_equal.
    unfold atob in Ea. destruct (forgiving_base64_decode encoded); congruence.
Qed.

(** What [decodeQRPayload] makes of a bare product number, of base64 that is
    not JSON and of base64 of a JSON number. *)
Example decode_plain_identifier : decodeQRPayload (str "P-100") = Ok JNull.
Proof. reflexivity. Qed.

Example decode_not_json : decodeQRPayload (str "aGVsbG8=") = Ok JNull.
Proof. reflexivity. Qed.

Example decode_json_number : decodeQRPayload (str "MTIz") = Ok (JNumber (str "123")).
Proof. reflexivity. Qed.

(** ** The fingerprint *)

(** The implementation of SHA-256 agrees with the published test vectors. *)
Example sha256_abc :
  hashHex (SHA256.digest (str "abc"))
  = str "ba7816bf8f01cfea414140de5dae2223b00361a396177a9cb410ff61f20015ad".
Proof. vm_compute. reflexivity. Qed.

Example sha256_empty :
  hashHex (SHA256.digest [])
  = str "e3b0c44298fc1c149afbf4c8996fb92427ae41e4649b934ca495991b7852b855".
Proof. vm_compute. reflexivity. Qed.

Example sha256_two_blocks :
  hashHex (SHA256.digest (str "abcdbcdecdefdefgefghfghighijhijkijkljklmklmnlmnomnopnopq"))
  = str "248d6a61d20638b8e5c026930c3e6039a33ce45964ff2167f6ecedd419db06c1".
Proof. vm_compute. reflexivity. Qed.

Example fingerprint_widget :
  generateProductHash widget
  = str "8abbb76e2b2c4d8947404725408b3574b7f1d1ab3a322f235dd5c028e69013dc".
Proof. vm_compute. reflexivity. Qed.

Lemma land_255_byte x : is_byte (N.land x 255).
Proof.
  unfold is_byte. change 255 with (N.ones 8). rewrite N.land_ones.
  apply N.mod_lt. discriminate.
Qed.

Lemma be_bytes_bytes n x : Forall is_byte (SHA256.be_bytes n x).
Proof.
  unfold SHA256.be_bytes. apply Forall_forall. intros b Hb.
  apply in_map_iff in Hb. destruct Hb as (i & <- & _). apply land_255_byte.
Qed.

(** The digest is 32 bytes, that is 256 bits, whatever the message. *)
Lemma digest_256_bits msg :
  length (SHA256.digest msg) = 32%nat /\ Forall is_byte (SHA256.digest msg).
Proof.
  unfold SHA256.digest.
  destruct (SHA256.blocks _ SHA256.H0 _) as [[[[[[[a b] c] d] e] f] g] h].
  split; [reflexivity|].
  repeat (apply Forall_app; split); apply be_bytes_bytes.
Qed.

Lemma hex_byte b : is_byte b -> hex_byte_ok b = true.
Proof.
  intros Hb. apply (forall_below 256 hex_byte_ok); [vm_compute; reflexivity | exact Hb].
Qed.

Lemma hashHex_shape bs :
  Forall is_byte bs ->
  length (hashHex bs) = (2 * length bs)%nat /\ forallb is_lower_hex (hashHex bs) = true.
Proof.
  induction 1 as [|b bs Hb _ [IHl IHf]]; [split; reflexivity|].
  change (hashHex (b :: bs)) with (padStart 2 48 (toString16 b) ++ hashHex bs).
  apply hex_byte in Hb. unfold hex_byte_ok in Hb.
  apply andb_prop in Hb. destruct Hb as [Hb _].
  apply andb_prop in Hb. destruct Hb as [Hl Hh].
  apply Nat.eqb_eq in Hl.
  rewrite length_app, forallb_app, Hl, IHl, Hh, IHf. cbn [length]. split; [lia | reflexivity].
Qed.

Lemma unhex_hashHex bs : Forall is_byte bs -> unhex (hashHex bs) = Some bs.
Proof.
  induction 1 as [|b bs Hb _ IH]; [reflexivity|].
  change (hashHex (b :: bs)) with (padStart 2 48 (toString16 b) ++ hashHex bs).
  apply hex_byte in Hb. unfold hex_byte_ok in Hb.
  apply andb_prop in Hb. destruct Hb as [Hb Hv].
  apply andb_prop in Hb. destruct Hb as [Hl _].
  destruct (padStart 2 48 (toString16 b)) as [|h [|l [|x r]]]; try discriminate.
  cbn [app unhex]. rewrite IH.
  destruct (hex_pair_value [h; l]) as [v|]; [|discriminate].
  apply N.eqb_eq in Hv. subst v. reflexivity.
Qed.

(** C6. [generateProductHash] joins the five attributes in the fixed order
    identifier, name, brand, manufacture date, expiry date with the one
    character [|], takes the SHA-256 digest (32 bytes) of the UTF-8 bytes of
    that string and returns its hexadecimal encoding: exactly 64 characters,
    each a digit or a lowercase letter [a]-[f].  It is a function of the five
    attributes alone: no host, key or state is among its arguments. *)
Theorem generateProductHash_spec (no name brand mdate edate : jsstring) :
  let digest :=
    SHA256.digest (TextEncoder_encode
      (no ++ [124] ++ name ++ [124] ++ brand ++ [124] ++ mdate ++ [124] ++ edate)) in
  generateProductHash (ProductAttrs.mk no name brand mdate edate) = hashHex digest
  /\ length delimiter = 1%nat
  /\ length digest = 32%nat
  /\ Forall is_byte digest
  /\ length (generateProductHash (ProductAttrs.mk no name brand mdate edate)) = 64%nat
  /\ forallb is_lower_hex (generateProductHash (ProductAttrs.mk no name brand mdate edate)) = true
  /\ unhex (generateProductHash (ProductAttrs.mk no name brand mdate edate)) = Some digest.
Proof.
  intros digest.
  destruct (digest_256_bits
              (TextEncoder_encode
                 (no ++ [124] ++ name ++ [124] ++ brand ++ [124] ++ mdate ++ [124] ++ edate)))
    as [Hl Hb].
  fold digest in Hl, Hb.
  destruct (hashHex_shape digest Hb) as [Hhl Hhf].
  assert (E : generateProductHash (ProductAttrs.mk no name brand mdate edate) = hashHex digest)
    by reflexivity.
  rewrite E, Hhl, Hl, (unhex_hashHex digest Hb). repeat split; auto.
Qed.

(** C9. The fingerprint is not injective on attribute tuples, whatever the
    digest: without escaping of [|], identifier [A|B] with name [C] and
    identifier [A] with name [B|C] (other fields equal) are two different
    tuples with the same concatenation, hence the same fingerprint. *)
Theorem generateProductHash_not_injective (brand mdate edate : jsstring) :
  let p1 := ProductAttrs.mk (str "A|B") (str "C") brand mdate edate in
  let p2 := ProductAttrs.mk (str "A") (str "B|C") brand mdate edate in
  p1 <> p2 /\ dataString p1 = dataString p2
  /\ generateProductHash p1 = generateProductHash p2.
Proof.
  intros p1 p2.
  assert (E : dataString p1 = dataString p2) by reflexivity.
  split; [discriminate|]. split; [exact E|].
  unfold generateProductHash. rewrite E. reflexivity.
Qed.

(** ** The scan page *)

Lemma recordScan_run env productNo isFake result st :
  exists st',
    recordScan env productNo isFake result st = (Ok tt, st')
    /\ verificationStatus st' = verificationStatus st
    /\ scans st'
       = scans st ++ match user env, insert_fault env with
                     | Some uid, NoFault => [Scan.mk productNo uid isFake result]
                     | _, _ => []
                     end.
Proof.
  unfold recordScan, insert_scan, try_catch.
  destruct (user env) as [uid|]; [destruct (insert_fault env)|];
    eexists; (split; [reflexivity|]); cbn; rewrite ?app_nil_r; auto.
Qed.

Ltac run_recordScan env pn f r st :=
  let st' := fresh "st" in
  let E := fresh "E" in
  let Hs := fresh "Hs" in
  let Hr := fresh "Hr" in
  destruct (recordScan_run env pn f r st) as (st' & E & Hs & Hr);
  rewrite E; clear E.

(** What a run of [verifyProduct] leaves: it returns normally, the status is
    that of the branch taken and [scans] has grown by the rows recorded. *)
Ltac after_recordScan env :=
  unfold bind at 1; cbn [setVerificationStatus modify]; unfold bind at 1;
  match goal with
  | |- context [recordScan env ?pn ?f ?r ?s] => run_recordScan env pn f r s
  end;
  cbn; eexists; (split; [reflexivity|]); cbn;
  match goal with
  | Hr : scans _ = _, Hs : verificationStatus _ = _ |- _ => rewrite Hr, Hs
  end;
  cbn; destruct (user env), (insert_fault env); auto.

Lemma verifyProduct_run env productNumber qrHash st :
  exists st',
    verifyProduct env productNumber qrHash st = (Ok tt, st')
    /\ verificationStatus st' = branch_status (branch_of env productNumber qrHash)
    /\ scans st' = scans st ++ recorded env productNumber (branch_of env productNumber qrHash)
    /\ loading st' = false.
Proof.
  unfold verifyProduct, branch_of, found, recorded, select_single.
  unfold bind at 1 2 3. cbn [setLoading setVerificationStatus setProductDetails modify].
  unfold try_finally, try_catch.
  destruct (lookup_fault env).
  - destruct (filter _ (products env)) as [|p [|p' l]];
      unfold bind at 1; cbn [ret error data].
    + after_recordScan env.
    + unfold bind at 1. cbn [setProductDetails modify].
      destruct (isProductExpired (host env) (Product.expiry_date p));
        [after_recordScan env|].
      destruct (truthy qrHash); [|after_recordScan env].
      destruct (verifyProductHash (string_of qrHash) (Product.attrs p)
                && jsstring_eqb (string_of qrHash) (Product.qr_hash p));
        after_recordScan env.
    + after_recordScan env.
  - unfold bind at 1. cbn [ret error data]. after_recordScan env.
  - cbn. eexists. split; [reflexivity|]. cbn. rewrite app_nil_r. auto.
Qed.

Lemma verifyProduct_status env productNumber qrHash st :
  fst (verifyProduct env productNumber qrHash st) = Ok tt
  /\ verificationStatus (snd (verifyProduct env productNumber qrHash st))
     = branch_status (branch_of env productNumber qrHash)
  /\ scans (snd (verifyProduct env productNumber qrHash st))
     = scans st ++ recorded env productNumber (branch_of env productNumber qrHash).
Proof.
  destruct (verifyProduct_run env productNumber qrHash st) as (st' & E & Hs & Hr & _).
  rewrite E. auto.
Qed.

(** *** Scenarios of the specification *)

Example scenario_A :
  status_after (example_env alice NoFault NoFault) (str "P-100")
    (Some (generateProductHash widget)) = Some original.
Proof. vm_compute. reflexivity. Qed.

Example scenario_B :
  status_after (example_env alice NoFault NoFault) (str "P-100") (Some zeros64) = Some fake.
Proof. vm_compute. reflexivity. Qed.

Example scenario_C :
  status_after (example_env alice NoFault NoFault) (str "P-200") (Some zeros64) = Some expired
  /\ status_after (example_env alice NoFault NoFault) (str "P-200")
       (Some (Product.qr_hash P200)) = Some expired.
Proof. split; vm_compute; reflexivity. Qed.

Example scenario_D :
  status_after (example_env alice NoFault NoFault) (str "NO-SUCH-ID") None = Some unknown
  /\ scans_after (example_env alice NoFault NoFault) (str "NO-SUCH-ID") None
     = [Scan.mk (str "NO-SUCH-ID") (str "alice") true (str "Product not found in database")].
Proof. split; vm_compute; reflexivity. Qed.

(** *** C1: the decision table *)

(** A QR payload can carry an empty fingerprint: the token of
    [{ hash: '', product_no: 'P-100' }] decodes to that object, whose [hash]
    the scan handler passes on to [verifyProduct]. *)
Example empty_hash_payload_decodes :
  exists token,
    encodeQRPayload (QRPayload.mk [] (str "P-100")) = Ok token
    /\ decodeQRPayload token = Ok (payload_value (QRPayload.mk [] (str "P-100"))).
Proof. eexists. split; vm_compute; reflexivity. Qed.

(** C1 as stated fails twice.  A supplied fingerprint that is the empty
    string matches nothing, so the table says fake, yet [if (qrHash)] sends it
    down the manual-entry path and the status is original.  And when the
    lookup throws, the [catch] block leaves the status unset: none of the
    four. *)
Lemma decision_table_counterexample :
  (found (example_env alice NoFault NoFault) (str "P-100") = Some P100
   /\ decision_table example_host (Some P100) (Some []) = fake
   /\ status_after (example_env alice NoFault NoFault) (str "P-100") (Some []) = Some original)
  /\ status_after (example_env alice Throws NoFault) (str "P-100") None = None.
Proof. repeat split; vm_compute; reflexivity. Qed.

(** C1, amended.  For every call whose lookup does not throw and whose
    fingerprint, when supplied, is not the empty string, [verifyProduct]
    returns normally and the status follows the table in this order: lookup
    error or no such product, unknown; else stored expiry date strictly
    before now, expired, whatever the fingerprint; else a supplied
    fingerprint gives original exactly when it equals both the recomputed
    and the stored fingerprint and fake otherwise; else, no fingerprint,
    original. *)
Theorem verifyProduct_decision_table env productNumber qrHash st :
  lookup_fault env <> Throws ->
  qrHash <> Some [] ->
  fst (verifyProduct env productNumber qrHash st) = Ok tt
  /\ verificationStatus (snd (verifyProduct env productNumber qrHash st))
     = Some (decision_table (host env) (found env productNumber) qrHash).
Proof.
  intros Hl Hq.
  destruct (verifyProduct_status env productNumber qrHash st) as (Hr & Hs & _).
  split; [exact Hr|]. rewrite Hs. unfold branch_of, decision_table.
  destruct (lookup_fault env) eqn:El; [| |contradiction];
    (destruct (found env productNumber) as [p|]; [|reflexivity]);
    (destruct (isProductExpired (host env) (Product.expiry_date p)); [reflexivity|]);
    (destruct qrHash as [[|c h]|]; [contradiction| |reflexivity]);
    cbn [truthy string_of]; unfold verifyProductHash;
    destruct (jsstring_eqb (c :: h) (generateProductHash (Product.attrs p))
              && jsstring_eqb (c :: h) (Product.qr_hash p)); reflexivity.
Qed.

Lemma verifyProduct_decision_table_witness :
  lookup_fault (example_env alice NoFault NoFault) <> Throws
  /\ Some zeros64 <> Some []
  /\ fst (verifyProduct (example_env alice NoFault NoFault) (str "P-100") (Some zeros64)
            fresh_page) = Ok tt
  /\ verificationStatus
       (snd (verifyProduct (example_env alice NoFault NoFault) (str "P-100") (Some zeros64)
               fresh_page))
     = Some (decision_table (host (example_env alice NoFault NoFault))
               (found (example_env alice NoFault NoFault) (str "P-100")) (Some zeros64)).
Proof.
  assert (H1 : lookup_fault (example_env alice NoFault NoFault) <> Throws) by discriminate.
  assert (H2 : Some zeros64 <> Some (@nil N)) by discriminate.
  split; [exact H1|]. split; [exact H2|].
  exact (verifyProduct_decision_table (example_env alice NoFault NoFault) (str "P-100")
           (Some zeros64) fresh_page H1 H2).
Defined.

(** *** C2: the scan record *)

Lemma branch_record_reason env productNumber qrHash :
  lookup_fault env <> Throws ->
  exists status,
    branch_status (branch_of env productNumber qrHash) = Some status
    /\ branch_record (branch_of env productNumber qrHash)
       = Some (flagged status, reason status (truthy qrHash)).
Proof.
  intros Hl. unfold branch_of.
  destruct (lookup_fault env); [| |contradiction];
    (destruct (found env productNumber) as [p|]; [|exists unknown; auto]);
    (destruct (isProductExpired _ _); [exists expired; auto|]);
    (destruct (truthy qrHash); [|exists original; auto]);
    (destruct (_ && _); [exists original | exists fake]); auto.
Qed.

(** C2 as stated fails: with no signed-in user, [recordScan] returns at its
    first line and a call, here one that ends in unknown, appends nothing. *)
Lemma anonymous_scan_not_recorded :
  user (example_env None NoFault NoFault) = None
  /\ status_after (example_env None NoFault NoFault) (str "NO-SUCH-ID") None = Some unknown
  /\ scans_after (example_env None NoFault NoFault) (str "NO-SUCH-ID") None = [].
Proof. repeat split; vm_compute; reflexivity. Qed.

(** C2, amended.  A call to [verifyProduct] made by a signed-in user, whose
    lookup does not throw and whose insert is accepted, appends exactly one
    scan row, in every branch: it carries the identifier passed in, the user,
    flagged = true for unknown, expired and fake and false for original, and
    the reason of the branch taken.  A call made with no signed-in user
    appends nothing, and so does one whose insert fails or whose lookup
    throws. *)
Theorem verifyProduct_records_scan env productNumber qrHash st :
  (forall uid,
      user env = Some uid -> lookup_fault env <> Throws -> insert_fault env = NoFault ->
      exists status,
        verificationStatus (snd (verifyProduct env productNumber qrHash st)) = Some status
        /\ scans (snd (verifyProduct env productNumber qrHash st))
           = scans st ++ [Scan.mk productNumber uid (flagged status)
                            (reason status (truthy qrHash))])
  /\ (user env = None \/ insert_fault env <> NoFault \/ lookup_fault env = Throws ->
      scans (snd (verifyProduct env productNumber qrHash st)) = scans st).
Proof.
  destruct (verifyProduct_status env productNumber qrHash st) as (_ & Hs & Hr).
  rewrite Hs, Hr. unfold recorded. split.
  - intros uid Hu Hl Hi.
    destruct (branch_record_reason env productNumber qrHash Hl) as (status & Es & Er).
    exists status. rewrite Es, Er, Hu, Hi. auto.
  - intros [Hu | [Hi | Hl]].
    + rewrite Hu. destruct (branch_record _) as [[f r]|]; apply app_nil_r.
    + destruct (branch_record _) as [[f r]|], (user env), (insert_fault env);
        try apply app_nil_r. contradiction.
    + unfold branch_of. rewrite Hl. apply app_nil_r.
Qed.

Lemma verifyProduct_records_scan_witness :
  (user (example_env alice NoFault NoFault) = Some (str "alice")
   /\ lookup_fault (example_env alice NoFault NoFault) <> Throws
   /\ insert_fault (example_env alice NoFault NoFault) = NoFault
   /\ exists status,
       verificationStatus
         (snd (verifyProduct (example_env alice NoFault NoFault) (str "P-200")
                 (Some zeros64) fresh_page)) = Some status
       /\ scans (snd (verifyProduct (example_env alice NoFault NoFault) (str "P-200")
                        (Some zeros64) fresh_page))
          = scans fresh_page
            ++ [Scan.mk (str "P-200") (str "alice") (flagged status)
                  (reason status (truthy (Some zeros64)))])
  /\ (user (example_env None NoFault NoFault) = None
      /\ scans (snd (verifyProduct (example_env None NoFault NoFault) (str "P-200")
                       (Some zeros64) fresh_page)) = scans fresh_page).
Proof.
  assert (Hl : lookup_fault (example_env alice NoFault NoFault) <> Throws) by discriminate.
  split.
  - split; [reflexivity|]. split; [exact Hl|]. split; [reflexivity|].
    exact (proj1 (verifyProduct_records_scan (example_env alice NoFault NoFault)
                    (str "P-200") (Some zeros64) fresh_page)
             (str "alice") eq_refl Hl eq_refl).
  - split; [reflexivity|].
    exact (proj2 (verifyProduct_records_scan (example_env None NoFault NoFault)
                    (str "P-200") (Some zeros64) fresh_page) (or_introl eq_refl)).
Defined.

(** *** C5: lookup failures *)

(** C5 as stated fails: the product is registered, the lookup request fails
    and the client reports the error; [verifyProduct] returns normally with
    the terminal status unknown and a flagged scan row. *)
Lemma lookup_error_mapped_to_unknown :
  found (example_env alice NoFault NoFault) (str "P-100") = Some P100
  /\ fst (verifyProduct (example_env alice ReturnsError NoFault) (str "P-100") None fresh_page)
     = Ok tt
  /\ status_after (example_env alice ReturnsError NoFault) (str "P-100") None = Some unknown
  /\ scans_after (example_env alice ReturnsError NoFault) (str "P-100") None
     = [Scan.mk (str "P-100") (str "alice") true (str "Product not found in database")].
Proof. repeat split; vm_compute; reflexivity. Qed.

(** C5, amended.  [verifyProduct] does not tell a failed lookup from a
    missing product and propagates nothing.  When the client reports the
    failure as an error result, the run is the very run of a lookup that
    finds no product: it returns normally with status unknown.  When the
    request throws, the [catch] block absorbs it: the call returns normally,
    the status stays unset and no scan row is written. *)
Theorem lookup_failure_not_propagated env productNumber qrHash st :
  (lookup_fault env = ReturnsError ->
     verifyProduct env productNumber qrHash st
     = verifyProduct (not_found_env env) productNumber qrHash st
     /\ fst (verifyProduct env productNumber qrHash st) = Ok tt
     /\ verificationStatus (snd (verifyProduct env productNumber qrHash st)) = Some unknown)
  /\ (lookup_fault env = Throws ->
     fst (verifyProduct env productNumber qrHash st) = Ok tt
     /\ verificationStatus (snd (verifyProduct env productNumber qrHash st)) = None
     /\ scans (snd (verifyProduct env productNumber qrHash st)) = scans st).
Proof.
  destruct (verifyProduct_status env productNumber qrHash st) as (Hr & Hs & Hsc).
  split; intros Hl.
  - split; [|split; [exact Hr|]].
    + unfold verifyProduct, select_single, not_found_env, recordScan, insert_scan.
      cbn [lookup_fault products user insert_fault host filter]. rewrite Hl. reflexivity.
    + rewrite Hs. unfold branch_of, found. rewrite Hl. reflexivity.
  - split; [exact Hr|]. rewrite Hs, Hsc. unfold recorded, branch_of. rewrite Hl.
    split; [reflexivity | apply app_nil_r].
Qed.

Lemma lookup_failure_not_propagated_witness :
  status_after (example_env alice ReturnsError NoFault) (str "P-100") None = Some unknown
  /\ status_after (example_env alice Throws NoFault) (str "P-100") None = None.
Proof.
  split.
  - exact (proj2 (proj2 (proj1 (lookup_failure_not_propagated
                                   (example_env alice ReturnsError NoFault)
                                   (str "P-100") None fresh_page) eq_refl))).
  - exact (proj1 (proj2 (proj2 (lookup_failure_not_propagated
                                   (example_env alice Throws NoFault)
                                   (str "P-100") None fresh_page) eq_refl))).
Defined.

(** *** C8: a failed scan write *)

(** C8. Whether the insert of the scan row is accepted, rejected with an
    error result or throws, [verifyProduct] returns normally and leaves the
    same verification status: the write failure is neither surfaced to the
    caller nor able to change the status. *)
Theorem scan_write_failure_harmless
    (h : Host) (table : list Product.t) (u : option jsstring) (lf f1 f2 : Fault)
    (productNumber : jsstring) (qrHash : option jsstring) (st : ScanState) :
  fst (verifyProduct (mkScanEnv h table u lf f1) productNumber qrHash st) = Ok tt
  /\ fst (verifyProduct (mkScanEnv h table u lf f2) productNumber qrHash st) = Ok tt
  /\ verificationStatus (snd (verifyProduct (mkScanEnv h table u lf f1) productNumber qrHash st))
     = verificationStatus (snd (verifyProduct (mkScanEnv h table u lf f2) productNumber qrHash st)).
Proof.
  destruct (verifyProduct_status (mkScanEnv h table u lf f1) productNumber qrHash st)
    as (Hr1 & Hs1 & _).
  destruct (verifyProduct_status (mkScanEnv h table u lf f2) productNumber qrHash st)
    as (Hr2 & Hs2 & _).
  rewrite Hs1, Hs2. repeat split; auto.
Qed.

(** ** The product-management page *)

Lemma rows_kept old form : rows_kept_or_written form old old.
Proof. intros row H. left. exact H. Qed.

Lemma rows_after_update form u id old :
  u_attrs u = form -> u_qr_hash u = generateProductHash form ->
  rows_kept_or_written form old
    (map (fun row => if jsstring_eqb (Product.id row) id then apply_update u row else row) old).
Proof.
  intros Ha Hh row Hin. apply in_map_iff in Hin. destruct Hin as (r & <- & Hr).
  destruct (jsstring_eqb (Product.id r) id).
  - right. split; assumption.
  - left. exact Hr.
Qed.

Lemma rows_after_insert form row old :
  written_from form row -> rows_kept_or_written form old (old ++ [row]).
Proof.
  intros Hw r Hin. apply in_app_or in Hin. destruct Hin as [Hin | [<- | []]].
  - left. exact Hin.
  - right. exact Hw.
Qed.

Lemma submit_write_rows env img st :
  rows_kept_or_written (formData st) (table st) (table (snd (submit_write env img st))).
Proof.
  unfold submit_write, bind, lift.
  destruct (encodeQRPayload _) as [token|e]; [|apply rows_kept].
  destruct (QRCode_toDataURL env token) as [qrImage|e]; [|apply rows_kept].
  destruct (editingProduct st) as [editing|];
    unfold update_product, insert_product, bind;
    destruct (write_fault env); cbn; try apply rows_kept.
  - apply rows_after_update; reflexivity.
  - apply rows_after_insert. split; reflexivity.
Qed.

Lemma handleSubmit_rows env st :
  rows_kept_or_written (formData st) (table st) (table (snd (handleSubmit env st))).
Proof.
  unfold handleSubmit, try_catch. unfold bind at 1.
  assert (G : forall img,
             rows_kept_or_written (formData st) (table st)
               (table (snd (let (r, s') := submit_write env img st in
                            match r with
                            | Ok a => (Ok a, s')
                            | Throw e =>
                                (admin_console_error (str "Error saving product:") ;;
                                 admin_toast (str "Error"))%js s'
                            end)))).
  { intros img. pose proof (submit_write_rows env img st) as H.
    destruct (submit_write env img st) as [[a|e] s']; exact H. }
  destruct (image_step env) as [|[|c url]|]; try apply G; apply rows_kept.
Qed.

Lemma rows_keep_invariant form old new :
  rows_kept_or_written form old new ->
  Forall fingerprint_ok old -> Forall fingerprint_ok new.
Proof.
  intros H Hold. apply Forall_forall. intros row Hin.
  destruct (H row Hin) as [Ho | [Ha Hh]].
  - rewrite Forall_forall in Hold. apply Hold, Ho.
  - unfold fingerprint_ok. rewrite Hh, Ha. reflexivity.
Qed.

(** C7. Product invariant.  After [handleSubmit], in either version of the
    page and whether it creates or updates, every row of [products] is a row
    that was there before or carries the five attributes of the form and,
    in [qr_hash], the fingerprint computed from exactly those five.  So if
    every stored fingerprint matched its row before the call, every one
    matches after it. *)
Theorem handleSubmit_fingerprint_invariant (env : AdminEnv) (st : AdminState) :
  (rows_kept_or_written (formData st) (table st) (table (snd (handleSubmit env st)))
   /\ rows_kept_or_written (formData st) (table st) (table (snd (handleSubmit_v1 env st))))
  /\ (Forall fingerprint_ok (table st) ->
      Forall fingerprint_ok (table (snd (handleSubmit env st)))
      /\ Forall fingerprint_ok (table (snd (handleSubmit_v1 env st)))).
Proof.
  assert (H2 := handleSubmit_rows env st).
  assert (H1 : rows_kept_or_written (formData st) (table st)
                 (table (snd (handleSubmit_v1 env st))))
    by apply submit_write_rows.
  split; [split; assumption|].
  intros Hold. split; eapply rows_keep_invariant; eassumption.
Qed.

Example create_appends_row :
  map Product.attrs (table (snd (handleSubmit example_admin creating)))
  = [widget; Product.attrs P200; gizmo]
  /\ map Product.qr_hash (table (snd (handleSubmit example_admin creating)))
     = [generateProductHash widget; Product.qr_hash P200; generateProductHash gizmo].
Proof. split; vm_compute; reflexivity. Qed.

Example update_rewrites_row :
  map Product.attrs (table (snd (handleSubmit example_admin updating)))
  = [renamed; Product.attrs P200]
  /\ map Product.qr_hash (table (snd (handleSubmit example_admin updating)))
     = [generateProductHash renamed; Product.qr_hash P200].
Proof. split; vm_compute; reflexivity. Qed.

Lemma example_table_ok : Forall fingerprint_ok [P100; P200].
Proof. repeat constructor. Qed.

Lemma handleSubmit_fingerprint_invariant_witness :
  Forall fingerprint_ok (table updating)
  /\ Forall fingerprint_ok (table (snd (handleSubmit example_admin updating)))
  /\ Forall fingerprint_ok (table (snd (handleSubmit_v1 example_admin updating))).
Proof.
  split; [exact example_table_ok|].
  exact (proj2 (handleSubmit_fingerprint_invariant example_admin updating) example_table_ok).
Defined.


(* ================================================================== *)
(** * Further properties of the code *)

(** ** [hash.ts] *)

Lemma jsstring_eqb_refl a : jsstring_eqb a a = true.
Proof.
  induction a as [|x a IH]; [reflexivity|].
  cbn [jsstring_eqb]. rewrite N.eqb_refl, IH. reflexivity.
Qed.

Lemma jsstring_eqb_eq a b : jsstring_eqb a b = true <-> a = b.
Proof.
  split; [|intros <-; apply jsstring_eqb_refl].
  revert b. induction a as [|x a IH]; intros [|y b] H; try discriminate; [reflexivity|].
  cbn [jsstring_eqb] in H. apply andb_prop in H. destruct H as [Hx Ha].
  apply N.eqb_eq in Hx. apply IH in Ha. congruence.
Qed.

(** X1. [verifyProductHash] accepts a stored hash exactly when it is the
    fingerprint of the product, so whatever it accepts is 64 characters of
    lowercase hexadecimal. *)
Theorem verifyProductHash_accepts_fingerprint (storedHash : jsstring) (product : ProductAttrs.t) :
  (verifyProductHash storedHash product = true <-> storedHash = generateProductHash product)
  /\ (verifyProductHash storedHash product = true ->
      length storedHash = 64%nat /\ forallb is_lower_hex storedHash = true).
Proof.
  assert (E : verifyProductHash storedHash product = true
              <-> storedHash = generateProductHash product)
    by apply jsstring_eqb_eq.
  split; [exact E|].
  intros H. apply E in H. subst storedHash.
  destruct (digest_256_bits (TextEncoder_encode (dataString product))) as [Hl Hb].
  destruct (hashHex_shape _ Hb) as [Hhl Hhf].
  unfold generateProductHash. rewrite Hhl, Hl. split; [reflexivity | exact Hhf].
Qed.

Lemma verifyProductHash_accepts_fingerprint_witness :
  verifyProductHash (generateProductHash widget) widget = true
  /\ length (generateProductHash widget) = 64%nat
  /\ forallb is_lower_hex (generateProductHash widget) = true.
Proof.
  assert (H : verifyProductHash (generateProductHash widget) widget = true)
    by (vm_compute; reflexivity).
  split; [exact H|].
  exact (proj2 (verifyProductHash_accepts_fingerprint (generateProductHash widget) widget) H).
Defined.

Lemma split_at_delimiter a a' r r' :
  delimiter_free a = true -> delimiter_free a' = true ->
  a ++ 124 :: r = a' ++ 124 :: r' -> a = a' /\ r = r'.
Proof.
  revert a'. induction a as [|x a IH]; intros [|y a'] Ha Ha' E; cbn [app] in E.
  - injection E as E. auto.
  - injection E as E1 E2. subst y. discriminate Ha'.
  - injection E as E1 E2. subst x. discriminate Ha.
  - injection E as E1 E2. subst y.
    cbn [delimiter_free forallb] in Ha, Ha'.
    apply andb_prop in Ha, Ha'. destruct Ha as [_ Ha]. destruct Ha' as [_ Ha'].
    destruct (IH a' Ha Ha' E2) as [-> ->]. auto.
Qed.

(** X2. On attributes whose first four fields do not contain [|], the
    string that is hashed determines the attributes: two such products with
    the same concatenation are the same product, so collisions like that of
    C9 need a [|] inside a field. *)
Theorem dataString_injective (p q : ProductAttrs.t) :
  delimiter_free (ProductAttrs.product_no p) = true ->
  delimiter_free (ProductAttrs.product_name p) = true ->
  delimiter_free (ProductAttrs.brand p) = true ->
  delimiter_free (ProductAttrs.manufacture_date p) = true ->
  delimiter_free (ProductAttrs.product_no q) = true ->
  delimiter_free (ProductAttrs.product_name q) = true ->
  delimiter_free (ProductAttrs.brand q) = true ->
  delimiter_free (ProductAttrs.manufacture_date q) = true ->
  dataString p = dataString q -> p = q.
Proof.
  destruct p as [a1 a2 a3 a4 a5], q as [b1 b2 b3 b4 b5].
  unfold dataString, delimiter. cbn [ProductAttrs.product_no ProductAttrs.product_name
    ProductAttrs.brand ProductAttrs.manufacture_date ProductAttrs.expiry_date str].
  change (N_of_ascii "|") with 124. cbn [app].
  intros P1 P2 P3 P4 Q1 Q2 Q3 Q4 E.
  apply split_at_delimiter in E; [|assumption|assumption]. destruct E as [-> E].
  apply split_at_delimiter in E; [|assumption|assumption]. destruct E as [-> E].
  apply split_at_delimiter in E; [|assumption|assumption]. destruct E as [-> E].
  apply split_at_delimiter in E; [|assumption|assumption]. destruct E as [-> ->].
  reflexivity.
Qed.

Lemma dataString_injective_witness : widget = widget.
Proof.
  apply (dataString_injective widget widget); reflexivity.
Defined.

(** What the units of the alphabet are not. *)
Lemma is_b64_plain c :
  is_b64 c = true -> is_ascii_whitespace c = false /\ (c =? pad) = false /\ c < 128.
Proof.
  unfold is_b64, b64index, is_ascii_whitespace, pad.
  destruct ((65 <=? c) && (c <=? 90)) eqn:E1.
  { apply andb_prop in E1. destruct E1 as [A B]. apply N.leb_le in A, B. intros _.
    repeat split; try lia.
    - repeat (apply orb_false_iff; split); apply N.eqb_neq; lia.
    - apply N.eqb_neq. lia. }
  destruct ((97 <=? c) && (c <=? 122)) eqn:E2.
  { apply andb_prop in E2. destruct E2 as [A B]. apply N.leb_le in A, B. intros _.
    repeat split; try lia.
    - repeat (apply orb_false_iff; split); apply N.eqb_neq; lia.
    - apply N.eqb_neq. lia. }
  destruct ((48 <=? c) && (c <=? 57)) eqn:E3.
  { apply andb_prop in E3. destruct E3 as [A B]. apply N.leb_le in A, B. intros _.
    repeat split; try lia.
    - repeat (apply orb_false_iff; split); apply N.eqb_neq; lia.
    - apply N.eqb_neq. lia. }
  destruct (c =? 43) eqn:E4.
  { apply N.eqb_eq in E4. subst c. intros _. repeat split; reflexivity. }
  destruct (c =? 47) eqn:E5.
  { apply N.eqb_eq in E5. subst c. intros _. repeat split; reflexivity. }
  discriminate.
Qed.

Lemma is_token_unit_ascii c : is_token_unit c = true -> c < 128.
Proof.
  unfold is_token_unit. intros H. apply orb_prop in H. destruct H as [H | H].
  - apply is_b64_plain in H. apply H.
  - apply N.eqb_eq in H. subst c. reflexivity.
Qed.

Ltac token_digits :=
  repeat match goal with
    | Hb : is_b64 (b64char _) = true |- _ => rewrite Hb; clear Hb
    end.

Lemma base64_encode_units bs :
  forallb is_latin1 bs = true -> forallb is_token_unit (base64_encode bs) = true.
Proof.
  induction bs as [|a|a b|a b c r IH] using list_triple_ind; intros H; cbn [forallb] in H.
  - reflexivity.
  - rewrite andb_true_r in H. rewrite base64_encode_1.
    digit_facts. cbn [forallb]. unfold is_token_unit at 1 2. token_digits. reflexivity.
  - apply andb_prop in H. destruct H as [Ha H]. rewrite andb_true_r in H.
    rewrite base64_encode_2.
    digit_facts. cbn [forallb]. unfold is_token_unit at 1 2 3. token_digits. reflexivity.
  - apply andb_prop in H. destruct H as [Ha H].
    apply andb_prop in H. destruct H as [Hb H].
    apply andb_prop in H. destruct H as [Hc H].
    change (base64_encode (a :: b :: c :: r))
      with (b64char (s0 a) :: b64char (s1 a b) :: b64char (s2 b c) :: b64char (s3 c)
            :: base64_encode r).
    digit_facts. cbn [forallb]. unfold is_token_unit at 1 2 3 4. token_digits.
    cbn [orb andb]. apply IH, H.
Qed.

(** X3. A token that [encodeQRPayload] returns is text a QR symbol can carry:
    it is not empty, its length is a multiple of four and every unit is a
    letter, a digit, [+], [/] or [=], all of them ASCII. *)
Theorem encodeQRPayload_token_shape (payload : QRPayload.t) (token : jsstring) :
  encodeQRPayload payload = Ok token ->
  token <> []
  /\ Nat.modulo (length token) 4 = 0%nat
  /\ forallb is_token_unit token = true
  /\ Forall (fun c => c < 128) token.
Proof.
  unfold encodeQRPayload, btoa.
  destruct (forallb is_latin1 (JSON_stringify payload)) eqn:H; [|discriminate].
  intros E. injection E as <-.
  destruct (base64_encode_shape _ H) as (_ & Hl & _).
  assert (Hu := base64_encode_units _ H).
  split; [|split; [exact Hl|split; [exact Hu|]]].
  - discriminate.
  - apply Forall_forall. intros c Hc. rewrite forallb_forall in Hu.
    apply is_token_unit_ascii, Hu, Hc.
Qed.

Lemma encodeQRPayload_token_shape_witness :
  exists token,
    encodeQRPayload scenario_payload = Ok token
    /\ token <> []
    /\ Nat.modulo (length token) 4 = 0%nat
    /\ forallb is_token_unit token = true
    /\ Forall (fun c => c < 128) token.
Proof.
  eexists. split; [vm_compute; reflexivity|].
  apply (encodeQRPayload_token_shape scenario_payload). vm_compute. reflexivity.
Defined.

(** X4. [encodeQRPayload] is injective: two payloads with the same token
    have the same fingerprint and the same identifier. *)
Theorem encodeQRPayload_injective (p q : QRPayload.t) (token : jsstring) :
  encodeQRPayload p = Ok token -> encodeQRPayload q = Ok token -> p = q.
Proof.
  intros Hp Hq. unfold encodeQRPayload in Hp, Hq.
  apply atob_btoa in Hp, Hq. rewrite Hp in Hq.
  assert (E : exc_bind (Ok (JSON_stringify p)) JSON_parse
              = exc_bind (Ok (JSON_stringify q)) JSON_parse)
    by (rewrite Hq; reflexivity).
  cbn [exc_bind] in E. rewrite !JSON_parse_stringify in E.
  destruct p as [h1 n1], q as [h2 n2]. unfold payload_value in E.
  cbn [QRPayload.hash QRPayload.product_no] in E. congruence.
Qed.

Lemma encodeQRPayload_injective_witness :
  exists token, encodeQRPayload scenario_payload = Ok token /\ scenario_payload = scenario_payload.
Proof.
  eexists. split; [vm_compute; reflexivity|].
  eapply (encodeQRPayload_injective scenario_payload scenario_payload); vm_compute; reflexivity.
Defined.

(** X5. [decodeQRPayload] does not see ASCII whitespace: two scanned strings
    that differ only in tabs, line feeds, form feeds, carriage returns and
    spaces, anywhere, decode to the same value. *)
Theorem decodeQRPayload_ignores_whitespace (scanned scanned' : jsstring) :
  filter (fun c => negb (is_ascii_whitespace c)) scanned
  = filter (fun c => negb (is_ascii_whitespace c)) scanned' ->
  decodeQRPayload scanned = decodeQRPayload scanned'.
Proof.
  intros H. unfold decodeQRPayload, atob, forgiving_base64_decode. rewrite H. reflexivity.
Qed.

Lemma decodeQRPayload_ignores_whitespace_witness :
  decodeQRPayload (str "eyJoYXNoIjoi YWIiLCJwcm9k dWN0X25vIjoiUC0xMDAifQ== ")
  = decodeQRPayload (str "eyJoYXNoIjoiYWIiLCJwcm9kdWN0X25vIjoiUC0xMDAifQ==").
Proof.
  apply decodeQRPayload_ignores_whitespace. vm_compute. reflexivity.
Defined.

Lemma b64_digits_kept l :
  forallb is_b64 l = true ->
  filter (fun c => negb (is_ascii_whitespace c)) l = l /\ drop_trailing_pad l = l.
Proof.
  induction l as [|c l IH]; [split; reflexivity|].
  cbn [forallb]. intros H. apply andb_prop in H. destruct H as [Hc Hl].
  destruct (is_b64_plain c Hc) as (Hw & Hp & _). destruct (IH Hl) as [IHf IHd].
  split.
  - cbn [filter]. rewrite Hw. cbn [negb]. rewrite IHf. reflexivity.
  - rewrite drop_trailing_pad_cons by exact Hp. rewrite IHd. reflexivity.
Qed.

(** X6. The padding of a token is optional: with its trailing [=] removed, a
    token of [encodeQRPayload] still decodes to the payload. *)
Theorem decodeQRPayload_without_padding (payload : QRPayload.t) (token : jsstring) :
  encodeQRPayload payload = Ok token ->
  decodeQRPayload (drop_trailing_pad token) = Ok (payload_value payload).
Proof.
  unfold encodeQRPayload, btoa.
  destruct (forallb is_latin1 (JSON_stringify payload)) eqn:H; [|discriminate].
  intros E.
  assert (Et : token = base64_encode (JSON_stringify payload)) by congruence.
  clear E. subst token.
  destruct (base64_encode_shape _ H) as (_ & _ & Hd).
  destruct (base64_digits_decode _ H) as (Hm & Ha & Hg).
  destruct (b64_digits_kept _ Ha) as [Hf Hp].
  unfold decodeQRPayload, atob, forgiving_base64_decode.
  rewrite Hd, Hf.
  assert (G : (if Nat.eqb (Nat.modulo (length (base64_digits (JSON_stringify payload))) 4) 0
               then drop_trailing_pad (base64_digits (JSON_stringify payload))
               else base64_digits (JSON_stringify payload))
              = base64_digits (JSON_stringify payload)).
  { rewrite Hp. destruct (Nat.eqb _ 0); reflexivity. }
  rewrite G, Hm, Ha, Hg. cbn [exc_bind]. rewrite JSON_parse_stringify. reflexivity.
Qed.

Lemma decodeQRPayload_without_padding_witness :
  decodeQRPayload (str "eyJoYXNoIjoiYWIiLCJwcm9kdWN0X25vIjoiUC0xMDAifQ")
  = Ok (payload_value (QRPayload.mk (str "ab") (str "P-100"))).
Proof.
  apply (decodeQRPayload_without_padding (QRPayload.mk (str "ab") (str "P-100"))
           (str "eyJoYXNoIjoiYWIiLCJwcm9kdWN0X25vIjoiUC0xMDAifQ==")).
  vm_compute. reflexivity.
Defined.

(** ** The scan page *)

Lemma recordScan_frame env productNo isFake result st :
  exists st',
    recordScan env productNo isFake result st = (Ok tt, st')
    /\ productDetails st' = productDetails st
    /\ toasts st' = toasts st
    /\ loading st' = loading st.
Proof.
  unfold recordScan, insert_scan, try_catch.
  destruct (user env) as [uid|]; [destruct (insert_fault env)|];
    eexists; (split; [reflexivity|]); cbn; auto.
Qed.

Ltac framed_recordScan env :=
  unfold bind at 1; cbn [setVerificationStatus modify]; unfold bind at 1;
  match goal with
  | |- context [recordScan env ?pn ?f ?r ?s] =>
      let st' := fresh "st" in
      let E := fresh "E" in
      destruct (recordScan_frame env pn f r s) as (st' & E & ? & ? & ?);
      rewrite E; clear E
  end;
  cbn; eexists; (split; [reflexivity|]); cbn;
  repeat match goal with
    | H : productDetails _ = _ |- _ => rewrite H; clear H
    | H : toasts _ = _ |- _ => rewrite H; clear H
    end;
  cbn; auto.

Lemma verifyProduct_page env productNumber qrHash st :
  exists st',
    verifyProduct env productNumber qrHash st = (Ok tt, st')
    /\ toasts st' = toasts st ++ [branch_title (branch_of env productNumber qrHash)]
    /\ productDetails st'
       = branch_details env productNumber (branch_of env productNumber qrHash).
Proof.
  unfold verifyProduct, branch_of, branch_details, found, select_single.
  unfold bind at 1 2 3. cbn [setLoading setVerificationStatus setProductDetails modify].
  unfold try_finally, try_catch.
  destruct (lookup_fault env).
  - destruct (filter _ (products env)) as [|p [|p' l]];
      unfold bind at 1; cbn [ret error data].
    + framed_recordScan env.
    + unfold bind at 1. cbn [setProductDetails modify].
      destruct (isProductExpired (host env) (Product.expiry_date p));
        [framed_recordScan env|].
      destruct (truthy qrHash); [|framed_recordScan env].
      destruct (verifyProductHash (string_of qrHash) (Product.attrs p)
                && jsstring_eqb (string_of qrHash) (Product.qr_hash p));
        framed_recordScan env.
    + framed_recordScan env.
  - unfold bind at 1. cbn [ret error data]. framed_recordScan env.
  - cbn. eexists. split; [reflexivity|]. cbn. auto.
Qed.

(** X7. [verifyProduct] never throws, whatever the lookup and the insert do:
    it returns normally with the spinner off and exactly one more toast on
    the page. *)
Theorem verifyProduct_always_returns env productNumber qrHash st :
  fst (verifyProduct env productNumber qrHash st) = Ok tt
  /\ loading (snd (verifyProduct env productNumber qrHash st)) = false
  /\ exists title,
      toasts (snd (verifyProduct env productNumber qrHash st)) = toasts st ++ [title].
Proof.
  destruct (verifyProduct_run env productNumber qrHash st) as (st1 & E1 & _ & _ & Hl).
  destruct (verifyProduct_page env productNumber qrHash st) as (st2 & E2 & Ht & _).
  rewrite E1 in E2. injection E2 as <-. rewrite E1. cbn [fst snd].
  split; [reflexivity|]. split; [exact Hl|]. eexists. exact Ht.
Qed.

Lemma branch_details_status env productNumber qrHash :
  branch_details env productNumber (branch_of env productNumber qrHash)
  = match branch_status (branch_of env productNumber qrHash) with
    | Some unknown | None => None
    | _ => found env productNumber
    end.
Proof.
  unfold branch_of, branch_details.
  destruct (lookup_fault env); try reflexivity;
    (destruct (found env productNumber) as [p|]; [|reflexivity]);
    (destruct (isProductExpired _ _); [reflexivity|]);
    (destruct (truthy qrHash); [|reflexivity]);
    destruct (_ && _); reflexivity.
Qed.

(** X8. After [verifyProduct] the page shows product details exactly when
    a product was found: the row the lookup returned when the status is
    original, fake or expired, nothing when it is unknown or unset.  Neither
    the status nor the details of an earlier verification survive a call. *)
Theorem verifyProduct_details env productNumber qrHash st :
  productDetails (snd (verifyProduct env productNumber qrHash st))
  = match verificationStatus (snd (verifyProduct env productNumber qrHash st)) with
    | Some unknown | None => None
    | _ => found env productNumber
    end
  /\ forall st0,
      verificationStatus (snd (verifyProduct env productNumber qrHash st))
      = verificationStatus (snd (verifyProduct env productNumber qrHash st0))
      /\ productDetails (snd (verifyProduct env productNumber qrHash st))
         = productDetails (snd (verifyProduct env productNumber qrHash st0)).
Proof.
  assert (G : forall s,
             verificationStatus (snd (verifyProduct env productNumber qrHash s))
             = branch_status (branch_of env productNumber qrHash)
             /\ productDetails (snd (verifyProduct env productNumber qrHash s))
                = branch_details env productNumber (branch_of env productNumber qrHash)).
  { intros s.
    destruct (verifyProduct_run env productNumber qrHash s) as (s1 & E1 & Hs & _).
    destruct (verifyProduct_page env productNumber qrHash s) as (s2 & E2 & _ & Hd).
    rewrite E1 in E2. injection E2 as <-. rewrite E1. cbn [snd]. auto. }
  destruct (G st) as [Hs Hd]. split.
  - rewrite Hd, Hs. apply branch_details_status.
  - intros st0. destruct (G st0) as [Hs0 Hd0]. rewrite Hs, Hd, Hs0, Hd0. auto.
Qed.

(** X9. A row whose stored fingerprint is not the fingerprint of its stored
    attributes never verifies as original through a QR code: whatever
    non-empty fingerprint the code carries, the status is not original. *)
Theorem tampered_row_never_original env productNumber h st (p : Product.t) :
  found env productNumber = Some p ->
  ~ fingerprint_ok p ->
  h <> [] ->
  verificationStatus (snd (verifyProduct env productNumber (Some h) st)) <> Some original.
Proof.
  intros Hf Hbad Hh.
  destruct (verifyProduct_status env productNumber (Some h) st) as (_ & Hs & _).
  rewrite Hs. unfold branch_of. rewrite Hf.
  assert (Hl : lookup_fault env = NoFault).
  { unfold found in Hf. destruct (lookup_fault env); [reflexivity | discriminate | discriminate]. }
  rewrite Hl.
  destruct (isProductExpired _ _); [discriminate|].
  destruct h as [|c h]; [contradiction|]. cbn [truthy string_of].
  destruct (verifyProductHash (c :: h) (Product.attrs p)
            && jsstring_eqb (c :: h) (Product.qr_hash p)) eqn:E; [|discriminate].
  exfalso. apply Hbad. unfold fingerprint_ok.
  apply andb_prop in E. destruct E as [E1 E2].
  unfold verifyProductHash in E1. apply jsstring_eqb_eq in E1, E2. congruence.
Qed.

Lemma tampered_row_never_original_witness :
  verificationStatus
    (snd (verifyProduct tampered_env (str "P-100") (Some (generateProductHash widget))
            fresh_page)) <> Some original.
Proof.
  apply (tampered_row_never_original tampered_env (str "P-100")
           (generateProductHash widget) fresh_page tampered).
  - vm_compute. reflexivity.
  - intros H. vm_compute in H. discriminate H.
  - vm_compute. discriminate.
Defined.

(** X10. Expiry is final: once [verifyProduct] has reported a product
    expired, every later verification of it whose lookup is served reports
    expired too, with any fingerprint or none. *)
Theorem expired_stays_expired env productNumber qrHash qrHash' st st' (later : Z) :
  (Date_now (host env) <= later)%Z ->
  verificationStatus (snd (verifyProduct env productNumber qrHash st)) = Some expired ->
  verificationStatus (snd (verifyProduct (at_time later env) productNumber qrHash' st'))
  = Some expired.
Proof.
  intros Hle H.
  destruct (verifyProduct_status env productNumber qrHash st) as (_ & Hs & _).
  destruct (verifyProduct_status (at_time later env) productNumber qrHash' st') as (_ & Hs' & _).
  rewrite Hs in H. rewrite Hs'. clear Hs Hs'.
  unfold branch_of, found, at_time in *.
  cbn [lookup_fault products host Date_parse Date_now].
  destruct (lookup_fault env); try discriminate.
  destruct (filter _ (products env)) as [|p [|p' l]]; try discriminate.
  unfold isProductExpired in *. cbn [Date_parse Date_now].
  destruct (Date_parse (host env) (Product.expiry_date p)) as [t|].
  - destruct (t <? Date_now (host env))%Z eqn:E.
    + apply Z.ltb_lt in E.
      assert (E' : (t <? later)%Z = true) by (apply Z.ltb_lt; lia).
      rewrite E'. reflexivity.
    + destruct (truthy qrHash); [destruct (_ && _)|]; discriminate.
  - destruct (truthy qrHash); [destruct (_ && _)|]; discriminate.
Qed.

Lemma expired_stays_expired_witness :
  verificationStatus
    (snd (verifyProduct (at_time 1893456000000 (example_env alice NoFault NoFault))
            (str "P-200") None fresh_page)) = Some expired.
Proof.
  apply (expired_stays_expired (example_env alice NoFault NoFault) (str "P-200")
           (Some zeros64) None fresh_page fresh_page 1893456000000).
  - vm_compute. discriminate.
  - vm_compute. reflexivity.
Defined.

(** *** Manual entry *)

Lemma drop_while_head f s :
  drop_while f s = [] \/ exists c r, drop_while f s = c :: r /\ f c = false.
Proof.
  induction s as [|c s IH]; [left; reflexivity|].
  cbn [drop_while]. destruct (f c) eqn:E; [exact IH|].
  right. exists c, s. auto.
Qed.

Lemma drop_while_suffix f s : exists pre, s = pre ++ drop_while f s.
Proof.
  induction s as [|c s [pre IH]]; [exists []; reflexivity|].
  cbn [drop_while]. destruct (f c).
  - exists (c :: pre). cbn [app]. f_equal. exact IH.
  - exists []. reflexivity.
Qed.

Lemma drop_while_all f s : forallb f s = true -> drop_while f s = [].
Proof.
  induction s as [|c s IH]; [reflexivity|].
  cbn [forallb drop_while]. intros H. apply andb_prop in H. destruct H as [Hc Hs].
  rewrite Hc. apply IH, Hs.
Qed.

(** [trim] is idempotent. *)
Lemma trim_trim s : trim (trim s) = trim s.
Proof.
  unfold trim.
  set (a := drop_while is_trim_whitespace s).
  set (b := drop_while is_trim_whitespace (rev a)).
  destruct (drop_while_head is_trim_whitespace (rev a)) as [Hb | (c & r & Hb & Hc)];
    fold b in Hb.
  - rewrite Hb. reflexivity.
  - destruct (drop_while_suffix is_trim_whitespace (rev a)) as [pre Hpre]. fold b in Hpre.
    assert (Ha : a = rev b ++ rev pre).
    { rewrite <- (rev_involutive a), Hpre, rev_app_distr. reflexivity. }
    assert (Hrb : drop_while is_trim_whitespace (rev b) = rev b).
    { destruct (rev b) as [|x l] eqn:Erb; [reflexivity|].
      destruct (drop_while_head is_trim_whitespace s) as [Ha0 | (y & l' & Ha1 & Hy)];
        fold a in Ha0 || fold a in Ha1.
      - rewrite Ha0 in Ha. discriminate Ha.
      - rewrite Ha1 in Ha. cbn [app] in Ha. injection Ha as -> _.
        cbn [drop_while]. rewrite Hy. reflexivity. }
    rewrite Hrb, rev_involutive.
    assert (Hbb : drop_while is_trim_whitespace b = b).
    { rewrite Hb. cbn [drop_while]. rewrite Hc. reflexivity. }
    rewrite Hbb. reflexivity.
Qed.

(** X11. A manual search on an input box that holds nothing but white space
    does nothing at all: no lookup, no toast, no scan row, the page is left
    as it was. *)
Theorem handleManualSearch_blank env (page : ScanPage) :
  forallb is_trim_whitespace (productNo page) = true ->
  handleManualSearch env page = (Ok tt, page).
Proof.
  intros H. unfold handleManualSearch, trim.
  rewrite (drop_while_all _ _ H). reflexivity.
Qed.

Lemma handleManualSearch_blank_witness :
  handleManualSearch (example_env alice NoFault NoFault)
    (mkScanPage (str "   ") fresh_page)
  = (Ok tt, mkScanPage (str "   ") fresh_page).
Proof.
  apply handleManualSearch_blank. reflexivity.
Defined.

Lemma manual_never_fake env productNumber st :
  verificationStatus (snd (verifyProduct env productNumber None st)) <> Some fake.
Proof.
  destruct (verifyProduct_status env productNumber None st) as (_ & Hs & _).
  rewrite Hs. unfold branch_of. cbn [truthy].
  destruct (lookup_fault env); try discriminate;
    (destruct (found env productNumber); [|discriminate]);
    destruct (isProductExpired _ _); discriminate.
Qed.

(** X12. A manual search verifies the trimmed text of the input box and
    supplies no fingerprint: white space around the product number changes
    nothing of the verification, the input box keeps its text, and a search
    on a box that is not blank never ends in the status fake. *)
Theorem handleManualSearch_trims env (page : ScanPage) :
  scan (snd (handleManualSearch env page))
  = scan (snd (handleManualSearch env (mkScanPage (trim (productNo page)) (scan page))))
  /\ productNo (snd (handleManualSearch env page)) = productNo page
  /\ (trim (productNo page) <> [] ->
      scan (snd (handleManualSearch env page))
      = snd (verifyProduct env (trim (productNo page)) None (scan page))
      /\ verificationStatus (scan (snd (handleManualSearch env page))) <> Some fake).
Proof.
  unfold handleManualSearch. cbn [productNo scan]. rewrite trim_trim.
  destruct (trim (productNo page)) as [|c n] eqn:Et.
  - cbn. split; [reflexivity|]. split; [reflexivity|]. intros Hne. contradiction.
  - unfold on_scan. cbn [scan productNo].
    destruct (verifyProduct env (c :: n) None (scan page)) as [r s'] eqn:Ev.
    cbn [snd scan productNo]. split; [reflexivity|]. split; [reflexivity|].
    intros _. split; [reflexivity|].
    pose proof (manual_never_fake env (c :: n) (scan page)) as Hn.
    rewrite Ev in Hn. exact Hn.
Qed.

Lemma handleManualSearch_trims_witness :
  trim (str "  P-100 ") <> []
  /\ scan (snd (handleManualSearch (example_env alice NoFault NoFault)
                  (mkScanPage (str "  P-100 ") fresh_page)))
     = snd (verifyProduct (example_env alice NoFault NoFault) (trim (str "  P-100 ")) None
              fresh_page)
  /\ verificationStatus
       (scan (snd (handleManualSearch (example_env alice NoFault NoFault)
                     (mkScanPage (str "  P-100 ") fresh_page)))) <> Some fake.
Proof.
  assert (H : trim (str "  P-100 ") <> []) by (vm_compute; discriminate).
  split; [exact H|].
  exact (proj2 (proj2 (handleManualSearch_trims (example_env alice NoFault NoFault)
                         (mkScanPage (str "  P-100 ") fresh_page))) H).
Defined.

(** *** Scanning a QR code *)

Lemma decodeQRPayload_token payload token :
  encodeQRPayload payload = Ok token -> decodeQRPayload token = Ok (payload_value payload).
Proof.
  intros E. unfold encodeQRPayload in E. unfold decodeQRPayload.
  rewrite (atob_btoa _ _ E). cbn [exc_bind]. rewrite JSON_parse_stringify. reflexivity.
Qed.

(** X13. When the scanned text is not base64, or is base64 of something that
    is not JSON, [handleQRScan] falls back to manual-entry semantics: it puts
    the raw text in the input box and verifies it as a product number with no
    fingerprint. *)
Theorem handleQRScan_fallback env (scanned : jsstring) :
  atob scanned = Throw InvalidCharacterError
  \/ (exists text, atob scanned = Ok text /\ JSON_parse text = Throw SyntaxError) ->
  exists run,
    handleQRScan env scanned = Some run
    /\ forall page,
        productNo (snd (run page)) = scanned
        /\ scan (snd (run page)) = snd (verifyProduct env scanned None (scan page))
        /\ fst (run page) = fst (verifyProduct env scanned None (scan page)).
Proof.
  intros H.
  assert (E : decodeQRPayload scanned = Ok JNull).
  { unfold decodeQRPayload. destruct H as [H | (text & Ha & Hp)].
    - rewrite H. reflexivity.
    - rewrite Ha. cbn [exc_bind]. rewrite Hp. reflexivity. }
  unfold handleQRScan. rewrite E. cbn [ToBoolean].
  eexists. split; [reflexivity|].
  intros page. unfold bind, setProductNo, modify, on_scan. cbn [scan productNo].
  destruct (verifyProduct env scanned None (scan page)) as [r s']. cbn. auto.
Qed.

Lemma handleQRScan_fallback_witness :
  exists run,
    handleQRScan (example_env alice NoFault NoFault) (str "P-100") = Some run
    /\ forall page,
        productNo (snd (run page)) = str "P-100"
        /\ scan (snd (run page))
           = snd (verifyProduct (example_env alice NoFault NoFault) (str "P-100") None
                    (scan page))
        /\ fst (run page)
           = fst (verifyProduct (example_env alice NoFault NoFault) (str "P-100") None
                    (scan page)).
Proof.
  apply (handleQRScan_fallback (example_env alice NoFault NoFault) (str "P-100")).
  left. vm_compute. reflexivity.
Defined.

(** X14. When the scanned text is a token of [encodeQRPayload],
    [handleQRScan] puts the payload's product number in the input box and
    verifies it together with the payload's fingerprint. *)
Theorem handleQRScan_token env (payload : QRPayload.t) (token : jsstring) :
  encodeQRPayload payload = Ok token ->
  exists run,
    handleQRScan env token = Some run
    /\ forall page,
        productNo (snd (run page)) = QRPayload.product_no payload
        /\ scan (snd (run page))
           = snd (verifyProduct env (QRPayload.product_no payload)
                    (Some (QRPayload.hash payload)) (scan page)).
Proof.
  intros E. unfold handleQRScan. rewrite (decodeQRPayload_token _ _ E).
  eexists. split; [reflexivity|].
  intros page. unfold bind, setProductNo, modify, on_scan. cbn [scan productNo].
  destruct (verifyProduct env _ _ (scan page)) as [r s']. cbn. auto.
Qed.

Lemma handleQRScan_token_witness :
  exists run,
    handleQRScan (example_env alice NoFault NoFault) gizmo_token = Some run
    /\ forall page,
        productNo (snd (run page)) = QRPayload.product_no (form_payload creating)
        /\ scan (snd (run page))
           = snd (verifyProduct (example_env alice NoFault NoFault)
                    (QRPayload.product_no (form_payload creating))
                    (Some (QRPayload.hash (form_payload creating))) (scan page)).
Proof.
  apply (handleQRScan_token (example_env alice NoFault NoFault) (form_payload creating)
           gizmo_token).
  vm_compute. reflexivity.
Defined.

(** ** The product-management page, continued *)

(** X15. A create that goes through appends exactly one row: with no
    product being edited, no image chosen, a form whose payload encodes, a
    QR image rendered and the insert served, the table after [handleSubmit]
    (either version) is the old table followed by one row that carries the
    fresh id, the five attributes of the form, their fingerprint and the
    image of the token; the call returns normally. *)
Theorem handleSubmit_create env st (token qrImage : jsstring) :
  editingProduct st = None ->
  image_step env = NoImageSelected ->
  write_fault env = NoFault ->
  encodeQRPayload (form_payload st) = Ok token ->
  QRCode_toDataURL env token = Ok qrImage ->
  table (snd (handleSubmit env st)) = table st ++ [created_row env st qrImage]
  /\ table (snd (handleSubmit_v1 env st)) = table st ++ [created_row env st qrImage]
  /\ fst (handleSubmit env st) = Ok tt
  /\ fst (handleSubmit_v1 env st) = Ok tt.
Proof.
  intros He Hi Hw Ht Hq.
  assert (G : submit_write env None st
              = (Ok tt, mkAdminState (table st ++ [created_row env st qrImage]) emptyForm None
                          false (admin_toasts st ++ [str "Product Added"]) (admin_console st))).
  { unfold submit_write, bind, lift, form_payload in *. rewrite Ht, Hq, He.
    unfold insert_product, bind. rewrite Hw. reflexivity. }
  assert (G2 : handleSubmit env st = submit_write env None st).
  { rewrite G. unfold handleSubmit, try_catch. unfold bind at 1. cbv beta iota.
    rewrite He, Hi.
    match goal with
    | |- context [submit_write ?e ?n ?s] =>
        change (submit_write e n s) with (submit_write env None st)
    end.
    rewrite G. reflexivity. }
  unfold handleSubmit_v1. rewrite G2, G. cbn [fst snd table]. auto.
Qed.

Lemma gizmo_token_encoded : encodeQRPayload (form_payload creating) = Ok gizmo_token.
Proof. vm_compute. reflexivity. Qed.

Lemma handleSubmit_create_witness :
  table (snd (handleSubmit example_admin creating))
  = table creating ++ [created_row example_admin creating gizmo_image].
Proof.
  exact (proj1 (handleSubmit_create example_admin creating gizmo_token gizmo_image
                  eq_refl eq_refl eq_refl gizmo_token_encoded eq_refl)).
Defined.

Lemma generateProductHash_nonempty product : generateProductHash product <> [].
Proof.
  destruct (digest_256_bits (TextEncoder_encode (dataString product))) as [Hl Hb].
  destruct (hashHex_shape _ Hb) as [Hhl _].
  unfold generateProductHash. intros E. rewrite E, Hl in Hhl. discriminate Hhl.
Qed.

Lemma filter_none {A} (f : A -> bool) l : (forall x, In x l -> f x = false) -> filter f l = [].
Proof.
  induction l as [|x l IH]; [reflexivity|]. intros H. cbn [filter].
  rewrite (H x (or_introl eq_refl)). apply IH. intros y Hy. apply H. right. exact Hy.
Qed.

Lemma handleSubmit_rows_created env st token qrImage :
  editingProduct st = None ->
  image_step env = NoImageSelected ->
  write_fault env = NoFault ->
  encodeQRPayload (form_payload st) = Ok token ->
  QRCode_toDataURL env token = Ok qrImage ->
  table (snd (handleSubmit env st)) = table st ++ [created_row env st qrImage].
Proof.
  intros He Hi Hw Ht Hq.
  unfold handleSubmit, try_catch. unfold bind at 1. cbv beta iota. rewrite He, Hi.
  unfold submit_write, bind, lift, form_payload in *. rewrite Ht, Hq, He.
  unfold insert_product, bind. rewrite Hw. reflexivity.
Qed.

(** X16. Registration and scanning fit together: once [handleSubmit] has
    created a product whose number was not in the table, scanning the token
    it rendered as a QR code makes [handleQRScan] report original and show
    the new row, as long as the lookup is served and the product has not
    expired. *)
Theorem registered_product_verifies
    (aenv : AdminEnv) (st : AdminState) (senv : ScanEnv)
    (token qrImage : jsstring) (page : ScanPage) :
  editingProduct st = None ->
  image_step aenv = NoImageSelected ->
  write_fault aenv = NoFault ->
  encodeQRPayload (form_payload st) = Ok token ->
  QRCode_toDataURL aenv token = Ok qrImage ->
  (forall row, In row (table st) ->
     Product.product_no row <> ProductAttrs.product_no (formData st)) ->
  products senv = table (snd (handleSubmit aenv st)) ->
  lookup_fault senv = NoFault ->
  isProductExpired (host senv) (ProductAttrs.expiry_date (formData st)) = false ->
  exists run,
    handleQRScan senv token = Some run
    /\ verificationStatus (scan (snd (run page))) = Some original
    /\ productDetails (scan (snd (run page))) = Some (created_row aenv st qrImage).
Proof.
  intros He Hi Hw Ht Hq Hnew Hp Hl Hx.
  unfold handleQRScan. rewrite (decodeQRPayload_token _ _ Ht).
  eexists. split; [reflexivity|].
  unfold bind, setProductNo, modify, on_scan. cbn [scan productNo form_payload QRPayload.product_no
    QRPayload.hash].
  set (n := ProductAttrs.product_no (formData st)).
  set (h := generateProductHash (formData st)).
  assert (Hfound : found senv n = Some (created_row aenv st qrImage)).
  { unfold found. rewrite Hl, Hp.
    rewrite (handleSubmit_rows_created aenv st token qrImage He Hi Hw Ht Hq).
    rewrite filter_app, filter_none.
    - cbn [app filter created_row Product.product_no Product.attrs].
      fold n. rewrite jsstring_eqb_refl. reflexivity.
    - intros row Hin. destruct (jsstring_eqb (Product.product_no row) n) eqn:E; [|reflexivity].
      apply jsstring_eqb_eq in E. exfalso. exact (Hnew row Hin E). }
  assert (Hb : branch_of senv n (Some h) = BVerified).
  { unfold branch_of. rewrite Hl, Hfound.
    unfold created_row, Product.expiry_date. cbn [Product.attrs Product.qr_hash].
    rewrite Hx. subst h.
    pose proof (generateProductHash_nonempty (formData st)) as Hne.
    unfold verifyProductHash.
    destruct (generateProductHash (formData st)) as [|c h']; [contradiction|].
    cbn [truthy string_of]. rewrite !jsstring_eqb_refl. reflexivity. }
  destruct (verifyProduct_run senv n (Some h) (scan page)) as (s1 & E1 & Hs & _).
  destruct (verifyProduct_page senv n (Some h) (scan page)) as (s2 & E2 & _ & Hd).
  rewrite E1 in E2. injection E2 as <-. rewrite E1. cbn [snd scan].
  rewrite Hs, Hd, Hb. cbn [branch_status branch_details]. split; [reflexivity | exact Hfound].
Qed.

Lemma registered_product_verifies_witness :
  exists run,
    handleQRScan after_create gizmo_token = Some run
    /\ verificationStatus (scan (snd (run (mkScanPage [] fresh_page)))) = Some original
    /\ productDetails (scan (snd (run (mkScanPage [] fresh_page))))
       = Some (created_row example_admin creating gizmo_image).
Proof.
  assert (Hnew : forall row, In row (table creating) ->
                   Product.product_no row <> ProductAttrs.product_no (formData creating))
    by (intros row [<- | [<- | []]]; vm_compute; discriminate).
  assert (Hexp : isProductExpired (host after_create)
                   (ProductAttrs.expiry_date (formData creating)) = false)
    by (vm_compute; reflexivity).
  exact (registered_product_verifies example_admin creating after_create gizmo_token
           gizmo_image (mkScanPage [] fresh_page)
           eq_refl eq_refl eq_refl gizmo_token_encoded eq_refl Hnew eq_refl eq_refl Hexp).
Defined.

Lemma submit_write_unencodable env img st :
  well_formed (form_payload st) = false ->
  submit_write env img st = (Throw InvalidCharacterError, st).
Proof.
  intros H. unfold submit_write, bind, lift.
  assert (E : encodeQRPayload (form_payload st) = Throw InvalidCharacterError).
  { unfold encodeQRPayload, btoa. unfold well_formed in H. rewrite H. reflexivity. }
  unfold form_payload in E. rewrite E. reflexivity.
Qed.

(** X17. A form whose payload [btoa] rejects (a product number with a
    letter outside Latin-1, say) cannot be registered: [handleSubmit] writes
    nothing to the table; the first version of the page lets the
    InvalidCharacterError escape, the later one catches it and returns
    normally. *)
Theorem handleSubmit_unencodable env st :
  well_formed (form_payload st) = false ->
  table (snd (handleSubmit env st)) = table st
  /\ fst (handleSubmit env st) = Ok tt
  /\ table (snd (handleSubmit_v1 env st)) = table st
  /\ fst (handleSubmit_v1 env st) = Throw InvalidCharacterError.
Proof.
  intros H.
  assert (G := fun img => submit_write_unencodable env img st H).
  assert (G1 : table (snd (handleSubmit_v1 env st)) = table st
               /\ fst (handleSubmit_v1 env st) = Throw InvalidCharacterError).
  { unfold handleSubmit_v1. rewrite G. split; reflexivity. }
  assert (G2 : exists s', handleSubmit env st = (Ok tt, s') /\ table s' = table st).
  { unfold handleSubmit, try_catch. unfold bind at 1. cbv beta iota.
    destruct (image_step env) as [|[|c url]|]; rewrite ?G; eexists; split; reflexivity. }
  destruct G2 as (s' & E & Ht). rewrite E. cbn [fst snd]. destruct G1. auto.
Qed.

Lemma handleSubmit_unencodable_witness :
  table (snd (handleSubmit example_admin omega_form)) = table omega_form
  /\ fst (handleSubmit example_admin omega_form) = Ok tt
  /\ table (snd (handleSubmit_v1 example_admin omega_form)) = table omega_form
  /\ fst (handleSubmit_v1 example_admin omega_form) = Throw InvalidCharacterError.
Proof.
  apply (handleSubmit_unencodable example_admin omega_form). vm_compute. reflexivity.
Defined.

Lemma submit_write_table env img st :
  table (snd (submit_write env img st)) = table st
  \/ (exists editing u,
        editingProduct st = Some editing
        /\ u_attrs u = formData st /\ u_qr_hash u = generateProductHash (formData st)
        /\ table (snd (submit_write env img st))
           = updated_table u (Product.id editing) (table st))
  \/ (exists row,
        editingProduct st = None
        /\ table (snd (submit_write env img st)) = table st ++ [row]).
Proof.
  unfold submit_write, bind, lift.
  destruct (encodeQRPayload _) as [token|e]; [|left; reflexivity].
  destruct (QRCode_toDataURL env token) as [qrImage|e]; [|left; reflexivity].
  destruct (editingProduct st) as [editing|] eqn:He;
    unfold update_product, insert_product, bind;
    destruct (write_fault env); cbn; auto.
  - right. left.
    exists editing, (mkUpdateData (formData st) (generateProductHash (formData st)) qrImage img).
    repeat split.
  - right. right. eexists. split; reflexivity.
Qed.

Lemma handleSubmit_table env st :
  exists img,
    table (snd (handleSubmit env st)) = table st
    \/ table (snd (handleSubmit env st)) = table (snd (submit_write env img st)).
Proof.
  unfold handleSubmit, try_catch. unfold bind at 1. cbv beta iota.
  assert (G : forall img,
             table (snd (let (r, s') := submit_write env img st in
                         match r with
                         | Ok a => (Ok a, s')
                         | Throw e =>
                             (admin_console_error (str "Error saving product:") ;;
                              admin_toast (str "Error"))%js s'
                         end))
             = table (snd (submit_write env img st))).
  { intros img. destruct (submit_write env img st) as [[a|e] s']; reflexivity. }
  destruct (image_step env) as [|[|c url]|].
  - eexists. right. apply G.
  - exists None. left. reflexivity.
  - eexists. right. apply G.
  - exists None. left. reflexivity.
Qed.

Lemma updated_table_ids u id rows :
  map Product.id (updated_table u id rows) = map Product.id rows.
Proof.
  unfold updated_table. rewrite map_map. apply map_ext. intros row.
  destruct (jsstring_eqb (Product.id row) id); reflexivity.
Qed.

Lemma updated_table_others u id rows row :
  In row rows -> Product.id row <> id -> In row (updated_table u id rows).
Proof.
  intros Hin Hid. unfold updated_table. apply in_map_iff. exists row. split; [|exact Hin].
  destruct (jsstring_eqb (Product.id row) id) eqn:E; [|reflexivity].
  apply jsstring_eqb_eq in E. contradiction.
Qed.

(** X18. An update through [handleSubmit] (either version, whatever the
    renderer and the request do) neither adds, removes nor reorders rows and
    changes no id; every row whose id is not the edited one is still in the
    table, exactly as it was. *)
Theorem handleSubmit_update_scope env st (editing : Product.t) :
  editingProduct st = Some editing ->
  (map Product.id (table (snd (handleSubmit env st))) = map Product.id (table st)
   /\ forall row, In row (table st) -> Product.id row <> Product.id editing ->
                  In row (table (snd (handleSubmit env st))))
  /\ (map Product.id (table (snd (handleSubmit_v1 env st))) = map Product.id (table st)
      /\ forall row, In row (table st) -> Product.id row <> Product.id editing ->
                     In row (table (snd (handleSubmit_v1 env st)))).
Proof.
  intros He.
  assert (G : forall img,
             map Product.id (table (snd (submit_write env img st))) = map Product.id (table st)
             /\ forall row, In row (table st) -> Product.id row <> Product.id editing ->
                            In row (table (snd (submit_write env img st)))).
  { intros img.
    destruct (submit_write_table env img st)
      as [E | [(e & u & He' & _ & _ & E) | (row & He' & _)]].
    - rewrite E. auto.
    - rewrite He in He'. injection He' as <-. rewrite E. split.
      + apply updated_table_ids.
      + intros row Hin Hid. apply updated_table_others; assumption.
    - rewrite He in He'. discriminate He'. }
  split; [|apply G].
  destruct (handleSubmit_table env st) as [img [E | E]]; rewrite E; [auto | apply G].
Qed.

Lemma handleSubmit_update_scope_witness :
  map Product.id (table (snd (handleSubmit example_admin updating)))
  = map Product.id (table updating)
  /\ In P200 (table (snd (handleSubmit example_admin updating))).
Proof.
  destruct (proj1 (handleSubmit_update_scope example_admin updating P100 eq_refl)) as [Hi Ho].
  split; [exact Hi|].
  apply Ho.
  - right. left. reflexivity.
  - vm_compute. discriminate.
Defined.

Lemma updated_table_same u (p : Product.t) rows :
  u_attrs u = Product.attrs p -> u_qr_hash u = Product.qr_hash p ->
  (forall row, In row rows -> Product.id row = Product.id p -> row = p) ->
  map Product.attrs (updated_table u (Product.id p) rows) = map Product.attrs rows
  /\ map Product.qr_hash (updated_table u (Product.id p) rows) = map Product.qr_hash rows.
Proof.
  intros Ha Hh Hu. unfold updated_table. rewrite !map_map.
  split; apply map_ext_in; intros row Hin;
    (destruct (jsstring_eqb (Product.id row) (Product.id p)) eqn:E; [|reflexivity]);
    apply jsstring_eqb_eq in E; rewrite (Hu row Hin E); cbn; congruence.
Qed.

(** X19. Opening a product in the edit dialog and saving it unchanged keeps
    what is printed on its QR code valid: if the row shown is the row in the
    table and its fingerprint is in order, then after [handleEdit] followed
    by [handleSubmit] every row has the attributes and the stored fingerprint
    it had before. *)
Theorem resave_keeps_fingerprints env st (p : Product.t) :
  fingerprint_ok p ->
  (forall row, In row (table st) -> Product.id row = Product.id p -> row = p) ->
  map Product.attrs (table (snd ((handleEdit p ;; handleSubmit env)%js st)))
  = map Product.attrs (table st)
  /\ map Product.qr_hash (table (snd ((handleEdit p ;; handleSubmit env)%js st)))
     = map Product.qr_hash (table st).
Proof.
  intros Hok Hu. unfold bind, handleEdit, modify.
  set (st1 := mkAdminState (table st) (Product.attrs p) (Some p) true
                (admin_toasts st) (admin_console st)).
  assert (G : forall img,
             map Product.attrs (table (snd (submit_write env img st1)))
             = map Product.attrs (table st)
             /\ map Product.qr_hash (table (snd (submit_write env img st1)))
                = map Product.qr_hash (table st)).
  { intros img.
    destruct (submit_write_table env img st1)
      as [E | [(e & u & He & Ha & Hh & E) | (row & He & _)]].
    - rewrite E. auto.
    - cbn [st1 editingProduct formData table] in He, Ha, Hh, E.
      injection He as <-. rewrite E.
      apply updated_table_same; [exact Ha | | exact Hu].
      rewrite Hh. symmetry. exact Hok.
    - discriminate He. }
  destruct (handleSubmit_table env st1) as [img [E | E]]; rewrite E; [auto | apply G].
Qed.

Lemma resave_keeps_fingerprints_witness :
  map Product.attrs
    (table (snd ((handleEdit P100 ;; handleSubmit example_admin)%js creating)))
  = map Product.attrs (table creating)
  /\ map Product.qr_hash
       (table (snd ((handleEdit P100 ;; handleSubmit example_admin)%js creating)))
     = map Product.qr_hash (table creating).
Proof.
  apply (resave_keeps_fingerprints example_admin creating P100).
  - reflexivity.
  - intros row [<- | [<- | []]] H; [reflexivity|].
    vm_compute in H. discriminate H.
Defined.

(** *** Deleting *)

Lemma split_on_nonempty sep s : split_on sep s <> [].
Proof.
  destruct s as [|c r]; cbn [split_on]; [discriminate|].
  destruct (c =? sep); [discriminate|]. destruct (split_on sep r); discriminate.
Qed.

Lemma join_cons sep part rest :
  rest <> [] -> join sep (part :: rest) = part ++ sep :: join sep rest.
Proof. destruct rest; [contradiction | reflexivity]. Qed.

(** [join] undoes [split]. *)
Lemma join_split_on sep s : join sep (split_on sep s) = s.
Proof.
  induction s as [|c r IH]; [reflexivity|].
  cbn [split_on]. destruct (c =? sep) eqn:E.
  - apply N.eqb_eq in E. subst c.
    rewrite join_cons by apply split_on_nonempty. rewrite IH. reflexivity.
  - pose proof (split_on_nonempty sep r) as Hne.
    destruct (split_on sep r) as [|part parts]; [contradiction|].
    destruct parts as [|q parts].
    + cbn [join] in *. rewrite IH. reflexivity.
    + rewrite join_cons by discriminate. rewrite join_cons in IH by discriminate.
      cbn [app]. rewrite IH. reflexivity.
Qed.

Lemma split_on_app sep a b :
  split_on sep (a ++ sep :: b) = split_on sep a ++ split_on sep b.
Proof.
  induction a as [|c a IH]; cbn [app split_on].
  - rewrite N.eqb_refl. reflexivity.
  - destruct (c =? sep); [rewrite IH; reflexivity|].
    rewrite IH. pose proof (split_on_nonempty sep a) as Hne.
    destruct (split_on sep a); [contradiction | reflexivity].
Qed.

Lemma findIndex_first {A} (f : A -> bool) l x r :
  (forall y, In y l -> f y = false) -> f x = true ->
  findIndex f (l ++ x :: r) = Some (length l).
Proof.
  intros Hl Hx. induction l as [|y l IH]; cbn [app findIndex length].
  - rewrite Hx. reflexivity.
  - rewrite (Hl y (or_introl eq_refl)), IH; [reflexivity|].
    intros z Hz. apply Hl. right. exact Hz.
Qed.

Lemma findIndex_none {A} (f : A -> bool) l :
  (forall y, In y l -> f y = false) -> findIndex f l = None.
Proof.
  intros Hl. induction l as [|y l IH]; [reflexivity|]. cbn [findIndex].
  rewrite (Hl y (or_introl eq_refl)), IH; [reflexivity|].
  intros z Hz. apply Hl. right. exact Hz.
Qed.

(** What [deleteImage] leaves: it never throws and never touches the table. *)
Lemma deleteImage_run storage_fault imageUrl store :
  exists store',
    deleteImage storage_fault imageUrl store = (Ok tt, store')
    /\ table (admin store') = table (admin store)
    /\ admin_toasts (admin store') = admin_toasts (admin store).
Proof.
  unfold deleteImage, try_catch.
  destruct imageUrl as [|c url]; [eexists; split; [reflexivity | auto]|].
  destruct (findIndex _ _) as [i|]; [|eexists; split; [reflexivity | auto]].
  unfold bind, storage_remove.
  destruct storage_fault; cbn; eexists; (split; [reflexivity|]); cbn; auto.
Qed.

(** X20. [deleteImage] removes from the bucket the file a public URL names:
    for a URL that ends in [/products/<file>] and has no earlier path segment
    [products], a served request removes exactly [products/<file>].  A URL
    with no segment [products], or an empty one, removes nothing.  In every
    case, also when the request fails or throws, [deleteImage] returns
    normally and leaves the table alone. *)
Theorem deleteImage_removes_named_file (base file : jsstring) (imageUrl : jsstring)
    (storage_fault : Fault) (store : AdminStore) :
  (forall part, In part (split_on 47 base) -> part <> str "products") ->
  (bucket (snd (deleteImage NoFault (base ++ str "/products/" ++ file) store))
   = filter (fun q => negb (jsstring_eqb q (str "products/" ++ file))) (bucket store))
  /\ snd (deleteImage NoFault base store) = store
  /\ fst (deleteImage storage_fault imageUrl store) = Ok tt
  /\ table (admin (snd (deleteImage storage_fault imageUrl store))) = table (admin store).
Proof.
  intros Hbase.
  assert (Hf : forall part, In part (split_on 47 base) ->
                 jsstring_eqb part (str "products") = false).
  { intros part Hin. destruct (jsstring_eqb part (str "products")) eqn:E; [|reflexivity].
    apply jsstring_eqb_eq in E. exfalso. exact (Hbase part Hin E). }
  split; [|split].
  - assert (Hs : split_on 47 (base ++ str "/products/" ++ file)
                 = split_on 47 base ++ str "products" :: split_on 47 file).
    { change (str "/products/" ++ file) with (47 :: (str "products" ++ 47 :: file)).
      rewrite !split_on_app. reflexivity. }
    unfold deleteImage, try_catch.
    destruct (base ++ str "/products/" ++ file) as [|c url] eqn:Eu.
    { destruct base; discriminate Eu. }
    rewrite Hs, (findIndex_first _ _ _ _ Hf (jsstring_eqb_refl _)).
    rewrite skipn_app, Nat.sub_diag, skipn_all. cbn [app skipn].
    rewrite join_cons by apply split_on_nonempty. rewrite join_split_on.
    unfold bind, storage_remove. cbn. reflexivity.
  - unfold deleteImage, try_catch. destruct base as [|c url] eqn:Eb; [reflexivity|].
    rewrite <- Eb in *. rewrite (findIndex_none _ _ Hf). reflexivity.
  - destruct (deleteImage_run storage_fault imageUrl store) as (store' & E & Ht & _).
    rewrite E. auto.
Qed.

Lemma deleteImage_removes_named_file_witness :
  bucket
    (snd (deleteImage NoFault
            (str "https://x.supabase.co/storage/v1/object/public/product-images"
             ++ str "/products/" ++ str "a.jpg") pictured_store))
  = filter (fun q => negb (jsstring_eqb q (str "products/" ++ str "a.jpg")))
      (bucket pictured_store).
Proof.
  apply (deleteImage_removes_named_file
           (str "https://x.supabase.co/storage/v1/object/public/product-images")
           (str "a.jpg") [] NoFault pictured_store).
  intros part Hin. vm_compute in Hin.
  repeat (destruct Hin as [<- | Hin]; [discriminate|]). contradiction.
Defined.

Lemma handleDelete_image_step storage_fault (shown : list Product.t) id store :
  exists store',
    match find (fun p => jsstring_eqb (Product.id p) id) shown with
    | Some product =>
        match Product.product_image product with
        | Some (c :: url) => deleteImage storage_fault (c :: url)
        | _ => ret tt
        end
    | None => ret tt
    end store = (Ok tt, store')
    /\ table (admin store') = table (admin store).
Proof.
  destruct (find _ shown) as [product|]; [|eexists; split; reflexivity].
  destruct (Product.product_image product) as [[|c url]|]; try (eexists; split; reflexivity).
  destruct (deleteImage_run storage_fault (c :: url) store) as (store' & E & Ht & _).
  exists store'. auto.
Qed.

(** X21. Deleting a product does not depend on its image: when the delete
    request is served, [handleDelete] returns normally and the table loses
    exactly the rows with the given id, whether the removal of the image
    succeeded, failed or threw (and likewise in the first version of the
    page, which has no images). *)
Theorem handleDelete_despite_image env storage_fault (shown : list Product.t)
    (id : jsstring) (store : AdminStore) :
  write_fault env = NoFault ->
  fst (handleDelete env storage_fault shown id store) = Ok tt
  /\ (forall row,
        In row (table (admin (snd (handleDelete env storage_fault shown id store))))
        <-> In row (table (admin store)) /\ Product.id row <> id)
  /\ fst (handleDelete_v1 env id (admin store)) = Ok tt
  /\ (forall row,
        In row (table (snd (handleDelete_v1 env id (admin store))))
        <-> In row (table (admin store)) /\ Product.id row <> id).
Proof.
  intros Hw.
  assert (F : forall rows row,
             In row (filter (fun r => negb (jsstring_eqb (Product.id r) id)) rows)
             <-> In row rows /\ Product.id row <> id).
  { intros rows row. rewrite filter_In. split; intros [Hin H]; split; try exact Hin.
    - intros E. apply jsstring_eqb_eq in E. rewrite E in H. discriminate H.
    - destruct (jsstring_eqb (Product.id row) id) eqn:E; [|reflexivity].
      apply jsstring_eqb_eq in E. contradiction. }
  assert (G1 : exists s', handleDelete_v1 env id (admin store) = (Ok tt, s')
                          /\ table s'
                             = filter (fun r => negb (jsstring_eqb (Product.id r) id))
                                 (table (admin store))).
  { unfold handleDelete_v1, delete_product, bind. rewrite Hw. cbn.
    eexists. split; reflexivity. }
  assert (G2 : exists s', handleDelete env storage_fault shown id store = (Ok tt, s')
                          /\ table (admin s')
                             = filter (fun r => negb (jsstring_eqb (Product.id r) id))
                                 (table (admin store))).
  { unfold handleDelete. unfold bind at 1.
    destruct (handleDelete_image_step storage_fault shown id store) as (store1 & E & Ht).
    rewrite E. unfold bind, on_admin, delete_product. rewrite Hw. cbn.
    eexists. split; [reflexivity|]. cbn. rewrite Ht. reflexivity. }
  destruct G1 as (s1 & E1 & T1). destruct G2 as (s2 & E2 & T2).
  rewrite E1, E2. cbn [fst snd]. rewrite T1, T2.
  split; [reflexivity|]. split; [apply F|]. split; [reflexivity | apply F].
Qed.

Lemma handleDelete_despite_image_witness :
  fst (handleDelete example_admin Throws [pictured; P200] (str "id-1") pictured_store) = Ok tt
  /\ forall row,
      In row (table (admin (snd (handleDelete example_admin Throws [pictured; P200]
                                   (str "id-1") pictured_store))))
      <-> In row (table (admin pictured_store)) /\ Product.id row <> str "id-1".
Proof.
  destruct (handleDelete_despite_image example_admin Throws [pictured; P200] (str "id-1")
              pictured_store eq_refl) as (H1 & H2 & _).
  split; [exact H1 | exact H2].
Defined.

(** ** How the paths of [verifyProduct] relate *)

(** X22. The fingerprint only separates original from fake.  If a
    verification ends in unknown, in expired or with the status unset, it
    ends the same way with any other fingerprint or none; and whenever a QR
    verification ends in original or in fake, manual entry of the same
    product number ends in original. *)
Theorem fingerprint_separates_original_from_fake env productNumber qrHash qrHash' st st' :
  (verificationStatus (snd (verifyProduct env productNumber qrHash st)) = Some unknown
   \/ verificationStatus (snd (verifyProduct env productNumber qrHash st)) = Some expired
   \/ verificationStatus (snd (verifyProduct env productNumber qrHash st)) = None ->
   verificationStatus (snd (verifyProduct env productNumber qrHash' st'))
   = verificationStatus (snd (verifyProduct env productNumber qrHash st)))
  /\ (verificationStatus (snd (verifyProduct env productNumber qrHash st)) = Some original
      \/ verificationStatus (snd (verifyProduct env productNumber qrHash st)) = Some fake ->
      verificationStatus (snd (verifyProduct env productNumber None st')) = Some original).
Proof.
  destruct (verifyProduct_status env productNumber qrHash st) as (_ & Hs & _).
  destruct (verifyProduct_status env productNumber qrHash' st') as (_ & Hs' & _).
  destruct (verifyProduct_status env productNumber None st') as (_ & Hn & _).
  rewrite Hs, Hs', Hn. clear Hs Hs' Hn. unfold branch_of. cbn [truthy].
  destruct (lookup_fault env);
    (destruct (found env productNumber) as [p|]);
    try (split; [reflexivity || (intros _; reflexivity)
                | intros [H | H]; discriminate H]);
    (destruct (isProductExpired (host env) (Product.expiry_date p));
     [split; [intros _; reflexivity | intros [H | H]; discriminate H]|]);
    (split; [|intros _; reflexivity]);
    (destruct (truthy qrHash); [destruct (_ && _)|]);
    intros [H | [H | H]]; discriminate H.
Qed.

Lemma fingerprint_separates_original_from_fake_witness :
  verificationStatus
    (snd (verifyProduct (example_env alice NoFault NoFault) (str "P-100") None fresh_page))
  = Some original.
Proof.
  apply (proj2 (fingerprint_separates_original_from_fake
                  (example_env alice NoFault NoFault) (str "P-100") (Some zeros64) None
                  fresh_page fresh_page)).
  right. vm_compute. reflexivity.
Defined.

Lemma JSON_parse_hashless n :
  JSON_parse (hashless_text n) = Ok (JObject [(str "product_no", JString n)]).
Proof.
  unfold JSON_parse, hashless_text. cbn [app].
  rewrite (lex_emit LStart 123 [TLBrace] LStart) by reflexivity.
  rewrite lex_QuoteJSONString. cbn [app].
  rewrite (lex_emit LStart 58 [TColon] LStart) by reflexivity.
  rewrite lex_QuoteJSONString. reflexivity.
Qed.

(** X23. A QR code whose payload has a product number and no hash is
    verified like manual entry: for the base64 of such a JSON object,
    [handleQRScan] puts the number in the input box and calls
    [verifyProduct] with no fingerprint, so the status is never fake. *)
Theorem handleQRScan_payload_without_hash env (productNumber token : jsstring) :
  btoa (hashless_text productNumber) = Ok token ->
  exists run,
    handleQRScan env token = Some run
    /\ forall page,
        productNo (snd (run page)) = productNumber
        /\ scan (snd (run page)) = snd (verifyProduct env productNumber None (scan page))
        /\ verificationStatus (scan (snd (run page))) <> Some fake.
Proof.
  intros E. unfold handleQRScan, decodeQRPayload.
  rewrite (atob_btoa _ _ E). cbn [exc_bind]. rewrite JSON_parse_hashless.
  eexists. split; [reflexivity|].
  intros page. unfold bind, setProductNo, modify, on_scan. cbn [scan productNo].
  pose proof (manual_never_fake env productNumber (scan page)) as Hn.
  destruct (verifyProduct env productNumber None (scan page)) as [r s']. cbn. auto.
Qed.

Lemma handleQRScan_payload_without_hash_witness :
  exists run,
    handleQRScan (example_env alice NoFault NoFault) (str "eyJwcm9kdWN0X25vIjoiUC0xMDAifQ==")
    = Some run
    /\ forall page,
        productNo (snd (run page)) = str "P-100"
        /\ scan (snd (run page))
           = snd (verifyProduct (example_env alice NoFault NoFault) (str "P-100") None
                    (scan page))
        /\ verificationStatus (scan (snd (run page))) <> Some fake.
Proof.
  apply (handleQRScan_payload_without_hash (example_env alice NoFault NoFault)
           (str "P-100") (str "eyJwcm9kdWN0X25vIjoiUC0xMDAifQ==")).
  vm_compute. reflexivity.
Defined.

(** ** The invariant of the table under the other operations of the page *)

Lemma delete_product_rows env id st :
  forall row, In row (table (snd (delete_product env id st))) -> In row (table st).
Proof.
  unfold delete_product, bind. destruct (write_fault env); cbn; auto.
  intros row Hin. apply filter_In in Hin. apply Hin.
Qed.

(** X24. No other operation of the product page changes a row: after
    [handleEdit], [handleDialogClose] and [handleDelete] (either version,
    whatever the requests do) every row of the table is a row that was there
    before, so the fingerprint invariant of C7 is kept by every operation of
    the page. *)
Theorem page_operations_keep_rows env storage_fault (shown : list Product.t)
    (id : jsstring) (p : Product.t) (open : bool) (store : AdminStore) :
  (table (snd (handleEdit p (admin store))) = table (admin store)
   /\ table (snd (handleDialogClose open (admin store))) = table (admin store)
   /\ (forall row, In row (table (snd (handleDelete_v1 env id (admin store)))) ->
                   In row (table (admin store)))
   /\ (forall row,
         In row (table (admin (snd (handleDelete env storage_fault shown id store)))) ->
         In row (table (admin store))))
  /\ (Forall fingerprint_ok (table (admin store)) ->
      Forall fingerprint_ok (table (snd (handleEdit p (admin store))))
      /\ Forall fingerprint_ok (table (snd (handleDialogClose open (admin store))))
      /\ Forall fingerprint_ok (table (snd (handleDelete_v1 env id (admin store))))
      /\ Forall fingerprint_ok
           (table (admin (snd (handleDelete env storage_fault shown id store))))).
Proof.
  assert (H1 : table (snd (handleEdit p (admin store))) = table (admin store)) by reflexivity.
  assert (H2 : table (snd (handleDialogClose open (admin store))) = table (admin store))
    by (destruct open; reflexivity).
  assert (H3 : forall row, In row (table (snd (handleDelete_v1 env id (admin store)))) ->
                           In row (table (admin store))).
  { intros row. unfold handleDelete_v1. unfold bind at 1.
    pose proof (delete_product_rows env id (admin store) row) as D.
    destruct (delete_product env id (admin store)) as [[a|e] s']; cbn in *; exact D. }
  assert (H4 : forall row,
             In row (table (admin (snd (handleDelete env storage_fault shown id store)))) ->
             In row (table (admin store))).
  { intros row. unfold handleDelete. unfold bind at 1.
    destruct (handleDelete_image_step storage_fault shown id store) as (store1 & E & Ht).
    rewrite E. unfold bind at 1. unfold on_admin at 1.
    pose proof (delete_product_rows env id (admin store1) row) as D.
    destruct (delete_product env id (admin store1)) as [[a|e] s']; cbn in *;
      rewrite <- Ht; exact D. }
  split; [auto|].
  intros Hok. rewrite H1, H2. repeat split; try exact Hok;
    apply Forall_forall; intros row Hin; rewrite Forall_forall in Hok; apply Hok; auto.
Qed.

Lemma page_operations_keep_rows_witness :
  Forall fingerprint_ok
    (table (admin (snd (handleDelete example_admin ReturnsError [pictured; P200] (str "id-2")
                          pictured_store)))).
Proof.
  assert (Hok : Forall fingerprint_ok (table (admin pictured_store)))
    by (repeat constructor).
  exact (proj2 (proj2 (proj2 (proj2 (page_operations_keep_rows example_admin ReturnsError
                                       [pictured; P200] (str "id-2") P100 true
                                       pictured_store) Hok)))).
Defined.
